(** * Kolibri coach reports and content-transfer admission

    A shallow embedding of the computed properties of three Vue components
    of Kolibri:

    - [SelectedResourcesSize.vue]: [remainingSpaceAfterTransfer] and
      [buttonIsDisabled];
    - [ReportsLessonListPage.vue]: the computed [table];
    - [ReportsLessonReportPage.vue]: the computed [table].

    JavaScript numbers are restricted to integers ([Z]); [NaN], infinities
    and fractions are outside the model.  JavaScript objects are finite maps
    from property names to values. *)

From stdpp Require Import gmap strings list fin_maps numbers.
From Stdlib Require Import ZArith QArith Qcanon Lia.

#[local] Set Warnings "-register-all".
#[local] Open Scope Z_scope.

(** * Part I: the program *)

(** ** SelectedResourcesSize.vue *)

Module SelectedResourcesSize.

(** The three numeric props of the component
    ([fileSize], [resourceCount], [spaceOnDrive], all [RequiredNumber]). *)
Record Props : Type := {
  fileSize : Z;
  resourceCount : Z;
  spaceOnDrive : Z;
}.

(** [Math.max(this.spaceOnDrive - this.fileSize, 0)] *)
Definition remainingSpaceAfterTransfer (this : Props) : Z :=
  Z.max (spaceOnDrive this - fileSize this) 0.

(** [this.resourceCount === 0 || this.remainingSpaceAfterTransfer <= 0] *)
Definition buttonIsDisabled (this : Props) : bool :=
  (resourceCount this =? 0) || (remainingSpaceAfterTransfer this <=? 0).

(** The confirm button is bound to [:disabled="buttonIsDisabled"]:
    the transfer is admitted when the button is enabled. *)
Definition admitted (this : Props) : bool := negb (buttonIsDisabled this).

(** [v-if="remainingSpaceAfterTransfer <= 0"] on the "not enough space" alert. *)
Definition notEnoughSpaceShown (this : Props) : bool :=
  remainingSpaceAfterTransfer this <=? 0.

End SelectedResourcesSize.

(** ** JavaScript values *)

Module JS.

(** The values that occur in the report pages.  An object is a finite map
    from property names to values; a missing property reads as
    [undefined]. *)
Inductive value : Type :=
| VUndefined
| VNull
| VBool (b : bool)
| VNum (n : Z)
| VStr (s : string)
| VArr (xs : list value)
| VObj (o : gmap string value).

Abbreviation obj := (gmap string value).

#[global] Instance value_inhabited : Inhabited value := populate VUndefined.

#[global] Instance value_eq_dec : EqDecision value.
Proof.
  refine (fix go (v1 v2 : value) {struct v1} : Decision (v1 = v2) :=
    let _ : EqDecision value := @go in
    match v1, v2 with
    | VUndefined, VUndefined => left _
    | VNull, VNull => left _
    | VBool a, VBool b => cast_if (decide (a = b))
    | VNum a, VNum b => cast_if (decide (a = b))
    | VStr a, VStr b => cast_if (decide (a = b))
    | VArr a, VArr b => cast_if (decide (a = b))
    | VObj a, VObj b => cast_if (decide (a = b))
    | _, _ => right _
    end); abstract congruence.
Defined.

(** [o.k] for an object [o]: [undefined] when the property is absent. *)
Definition get (k : string) (o : obj) : value := default VUndefined (o !! k).

(** [ToBoolean]: the falsy values are [undefined], [null], [false], [0]
    and the empty string. *)
Definition ToBoolean (v : value) : bool :=
  match v with
  | VUndefined | VNull => false
  | VBool b => b
  | VNum n => negb (n =? 0)
  | VStr s => negb (String.eqb s "")
  | VArr _ | VObj _ => true
  end.

(** [v === 'lit'] for a string literal. *)
Definition strict_eq_str (v : value) (lit : string) : bool :=
  match v with
  | VStr s => String.eqb s lit
  | _ => false
  end.

(** [Object.assign(target, source)]: every own property of [source] is
    written to [target], replacing a property of the same name. *)
Definition Object_assign (target source : obj) : obj := source ∪ target.

(** [array.filter(callback)] keeps the elements on which the callback
    returns a truthy value. *)
Definition Array_filter {A} (callback : A -> value) (xs : list A) : list A :=
  List.filter (fun x => ToBoolean (callback x)) xs.

(** [array.sort(comparer)], modelled by insertion: an element moves past
    those it compares greater than.  The comparer used here,
    [Lodash.compareMultiple], never answers 0 on two elements at different
    positions. *)
Section ArraySort.
Context {A : Type} (comparer : A -> A -> Z).

Fixpoint insert (x : A) (l : list A) : list A :=
  match l with
  | [] => [x]
  | y :: l' => if 0 <? comparer x y then y :: insert x l' else x :: l
  end.

Definition Array_sort (l : list A) : list A := foldr insert [] l.

(** What the language promises of [array.sort(comparer)], whatever the
    algorithm, when the comparer is consistent: the result holds the same
    elements, and no element compares less than one placed before it. *)
Definition sortedBy (out : list A) : Prop :=
  ForallOrdPairs (fun x y => ~ comparer y x < 0) out.

Definition isSortOf (l out : list A) : Prop :=
  Permutation out l /\ sortedBy out.

(** A consistent comparer: "less" one way is "greater" the other way, and
    "less" passes along "not greater". *)
Definition consistent : Prop :=
  (forall a b, comparer a b < 0 -> 0 < comparer b a) /\
  (forall a b c, comparer a b < 0 -> comparer b c <= 0 -> comparer a c < 0).

End ArraySort.

End JS.

(** ** lodash's [sortBy]

    Both tables sort with [this._.sortBy(collection, [names...])].  lodash
    is a dependency of the repository; [sortBy] is embedded after lodash 4
    ([baseOrderBy], [compareMultiple], [baseSortBy]), with the comparison of
    two criteria, [compareAscending], left abstract. *)

Module Lodash.
Import JS.

Section SortBy.
Context {A : Type}.

(** [_.property(name)(element)] *)
Variable property : string -> A -> value.

(** lodash's [compareAscending(value, other)]: negative, zero or positive. *)
Variable compareAscending : value -> value -> Z.

(** An element on its way through the sort:
    [{ 'criteria': criteria, 'index': ++index, 'value': value }] *)
Record Decorated : Type := {
  criteria : list value;
  index : Z;
  dvalue : A;
}.

(** The loop of [compareMultiple]: the first non-zero comparison of two
    criteria decides.  Both lists have one entry per iteratee. *)
Fixpoint compareCriteria (objCriteria othCriteria : list value) : Z :=
  match objCriteria, othCriteria with
  | v :: vs, w :: ws =>
      let result := compareAscending v w in
      if result =? 0 then compareCriteria vs ws else result
  | _, _ => 0
  end.

(** [compareMultiple(object, other, [])]: when no criterion decides,
    [return object.index - other.index]. *)
Definition compareMultiple (object other : Decorated) : Z :=
  let result := compareCriteria (criteria object) (criteria other) in
  if result =? 0 then index object - index other else result.

(** The criteria of one element: each iteratee applied to it. *)
Definition criteriaOf (iteratees : list string) (x : A) : list value :=
  map (fun name => property name x) iteratees.

(** Whether an element has the criteria [k] under the given iteratees. *)
Definition hasCriteria (iteratees : list string) (k : list value) (x : A) : bool :=
  bool_decide (criteriaOf iteratees x = k).

(** [baseMap] with the running [index], started at [i]. *)
Fixpoint decorateFrom (i : Z) (iteratees : list string) (collection : list A)
  : list Decorated :=
  match collection with
  | [] => []
  | x :: rest =>
      {| criteria := criteriaOf iteratees x; index := i; dvalue := x |}
        :: decorateFrom (i + 1) iteratees rest
  end.

(** [baseSortBy]: sort the decorated elements, then replace each by its
    [value]. *)
Definition baseSortBy (result : list Decorated) : list A :=
  map dvalue (Array_sort compareMultiple result).

(** [_.sortBy(collection, iteratees)] for a non-empty list of property
    names. *)
Definition sortBy (collection : list A) (iteratees : list string) : list A :=
  baseSortBy (decorateFrom 0 iteratees collection).

End SortBy.

Arguments criteria {A} _.
Arguments index {A} _.
Arguments dvalue {A} _.

End Lodash.

(** ** The coach getters [getContentStatusTally], [getLessonStatusTally]
       and [getContentAvgTimeSpent]

    The pages get these through the [commonCoach] mixin ([import commonCoach
    from '../common']), whose code is not part of the sources at hand. *)

Module Coach.

(** Modelled from the spec: the status of a completion record, "enumerated:
    not-started, in-progress, completed, needs-help"; the mixin that
    declares it is missing. *)
Inductive Status : Type := NotStarted | InProgress | Completed | NeedsHelp.

#[global] Instance Status_eq_dec : EqDecision Status.
Proof. solve_decision. Defined.

(** Modelled from the spec: a completion record, "recipient identifier, item
    identifier, status, time-spent (duration, may be absent/unknown)".  The
    two identifiers are the key under which the record is stored. *)
Record CompletionRecord : Type := {
  status : Status;
  timeSpent : option Z;
}.

(** Modelled from the spec: the record provider, "queryable by (recipient,
    item)", holding for each pair the most recent record. *)
Abbreviation Records := (gmap (string * string) CompletionRecord).

(** Modelled from the spec: the tally, "a mapping with four fixed keys, all
    present (zero-filled if unused), values non-negative integers". *)
Record Tally : Type := {
  notStarted : nat;
  inProgress : nat;
  completed : nat;
  needsHelp : nat;
}.

(** Modelled from the spec: the tally before any recipient is counted,
    "zero-filled". *)
Definition emptyTally : Tally :=
  {| notStarted := 0; inProgress := 0; completed := 0; needsHelp := 0 |}.

(** Modelled from the spec: the four counts of a tally, as
    [Object.values(tally)] lists them. *)
Definition tallyValues (t : Tally) : list nat :=
  [notStarted t; inProgress t; completed t; needsHelp t].

(** Modelled from the spec: "Increment the corresponding bucket." *)
Definition increment (s : Status) (t : Tally) : Tally :=
  match s with
  | NotStarted =>
      {| notStarted := S (notStarted t); inProgress := inProgress t;
         completed := completed t; needsHelp := needsHelp t |}
  | InProgress =>
      {| notStarted := notStarted t; inProgress := S (inProgress t);
         completed := completed t; needsHelp := needsHelp t |}
  | Completed =>
      {| notStarted := notStarted t; inProgress := inProgress t;
         completed := S (completed t); needsHelp := needsHelp t |}
  | NeedsHelp =>
      {| notStarted := notStarted t; inProgress := inProgress t;
         completed := completed t; needsHelp := S (needsHelp t) |}
  end.

(** Modelled from the spec: "look up the most recent CompletionRecord for
    (recipient, itemId); if absent, treat as not-started". *)
Definition statusFor (records : Records) (itemId recipient : string) : Status :=
  match records !! (recipient, itemId) with
  | Some r => status r
  | None => NotStarted
  end.

(** Modelled from the spec: [computeTally(itemId, recipients)] of section
    4.1, the getter behind [getContentStatusTally]; the mixin that defines
    it is missing.  The recipients are walked in order, one increment
    each. *)
Definition computeTally (records : Records) (itemId : string)
    (recipients : list string) : Tally :=
  foldl (fun t recipient => increment (statusFor records itemId recipient) t)
    emptyTally recipients.

(** Modelled from the spec: how many of the recipients count under status
    [s] for the item (a recipient without a record under not-started). *)
Definition countStatus (records : Records) (itemId : string) (s : Status)
    (recipients : list string) : nat :=
  length (List.filter
            (fun recipient => bool_decide (statusFor records itemId recipient = s))
            recipients).

(** Modelled from the spec: the time-spent value of a recipient for an
    item, when a record exists and its time-spent is defined. *)
Definition definedTime (records : Records) (itemId recipient : string) : option Z :=
  match records !! (recipient, itemId) with
  | Some r => timeSpent r
  | None => None
  end.

(** Modelled from the spec: the division of the mean, an error ([None]) on
    a zero denominator ("Must not divide by zero"). *)
Definition divide (numerator denominator : Z) : option Qc :=
  if denominator =? 0 then None
  else Some (Qc_of_Z numerator / Qc_of_Z denominator)%Qc.

(** Modelled from the spec: [computeAverageTime(itemId, recipients)] of
    section 4.2, the getter behind [getContentAvgTimeSpent]; the mixin that
    defines it is missing.  "Average (arithmetic mean) of time-spent across
    recipients who have a record with a defined time-spent value [...] if
    denominator is zero, return zero directly". *)
Definition computeAverageTime (records : Records) (itemId : string)
    (recipients : list string) : option Qc :=
  let times := omap (definedTime records itemId) recipients in
  let count := Z.of_nat (length times) in
  if count =? 0 then Some 0%Qc
  else divide (foldr Z.add 0 times) count.

End Coach.

(** ** ReportsLessonListPage.vue *)

Module ReportsLessonListPage.
Import JS.

Section Page.

(** Getters of the [commonCoach] mixin, used as given. *)
Variable getLearnersForLesson : obj -> list value.
Variable getLessonStatusTally : value -> list value -> value.
Variable getGroupNames : value -> value.

(** lodash's comparison of two sort criteria. *)
Variable compareAscending : value -> value -> Z.

(** The callback of [this.lessons.filter]; [filterValue] is
    [this.filter.value].  When no branch is taken the function ends without
    a [return], that is, with [undefined]. *)
Definition filterCallback (filterValue : value) (lesson : obj) : value :=
  if strict_eq_str filterValue "allLessons" then VBool true
  else if strict_eq_str filterValue "activeLessons" then get "active" lesson
  else if strict_eq_str filterValue "inactiveLessons"
       then VBool (negb (ToBoolean (get "active" lesson)))
  else VUndefined.

(** [const filtered = this.lessons.filter(...)] *)
Definition filtered (lessons : list obj) (filterValue : value) : list obj :=
  Array_filter (filterCallback filterValue) lessons.

(** [const sorted = this._.sortBy(filtered, ['title', 'active'])] *)
Definition sorted (lessons : list obj) (filterValue : value) : list obj :=
  Lodash.sortBy get compareAscending (filtered lessons filterValue)
    ["title"; "active"].

(** The object literal bound to [tableRow], before [Object.assign]. *)
Definition derivedFields (lesson : obj) : obj :=
  let learners := getLearnersForLesson lesson in
  <["totalLearners" := VNum (Z.of_nat (length learners))]>
  (<["tally" := getLessonStatusTally (get "id" lesson) learners]>
  (<["groupNames" := getGroupNames (get "groups" lesson)]>
  (<["hasAssignments" := VBool (0 <? Z.of_nat (length learners))]> ∅))).

(** The callback of [sorted.map]. *)
Definition tableRow (lesson : obj) : obj :=
  Object_assign (derivedFields lesson) lesson.

(** The computed property [table]. *)
Definition table (lessons : list obj) (filterValue : value) : list obj :=
  map tableRow (sorted lessons filterValue).

End Page.

End ReportsLessonListPage.

(** ** ReportsLessonReportPage.vue *)

Module ReportsLessonReportPage.
Import JS.

(** Modelled from the spec: the tally as the object the page stores in a
    row, "a mapping with four fixed keys"; the missing mixin fixes their
    names. *)
Definition tallyObject (t : Coach.Tally) : value :=
  VObj (<["notStarted" := VNum (Z.of_nat (Coach.notStarted t))]>
       (<["inProgress" := VNum (Z.of_nat (Coach.inProgress t))]>
       (<["completed" := VNum (Z.of_nat (Coach.completed t))]>
       (<["needsHelp" := VNum (Z.of_nat (Coach.needsHelp t))]> ∅)))).

(** [Object.values(tally).reduce((a, b) => a + b, 0)] *)
Definition tallySum (t : Coach.Tally) : Z :=
  foldl (fun a b => a + Z.of_nat b) 0 (Coach.tallyValues t).

Section Page.

(** [this.lesson.node_ids], [this.contentNodeMap] and [this.recipients]. *)
Variable node_ids : list string.
Variable contentNodeMap : gmap string obj.
Variable recipients : list value.

(** Getters of the [commonCoach] mixin, used as given. *)
Variable getContentStatusTally : value -> list value -> Coach.Tally.
Variable getContentAvgTimeSpent : value -> list value -> value.

(** lodash's comparison of two sort criteria. *)
Variable compareAscending : value -> value -> Z.

(** [this.lesson.node_ids.map(node_id => this.contentNodeMap[node_id])];
    [None] is the [undefined] of an id the map does not know. *)
Definition contentArray : list (option obj) :=
  map (fun node_id => contentNodeMap !! node_id) node_ids.

(** [_.property(name)] on an element of [contentArray]: [undefined] on
    [undefined]. *)
Definition contentProperty (name : string) (content : option obj) : value :=
  match content with
  | Some o => get name o
  | None => VUndefined
  end.

(** [const sorted = this._.sortBy(contentArray, ['title'])] *)
Definition sorted : list (option obj) :=
  Lodash.sortBy contentProperty compareAscending contentArray ["title"].

(** The object literal bound to [tableRow], before [Object.assign]. *)
Definition derivedFields (content : obj) : obj :=
  let tally := getContentStatusTally (get "content_id" content) recipients in
  <["avgTimeSpent" := getContentAvgTimeSpent (get "content_id" content) recipients]>
  (<["tally" := tallyObject tally]>
  (<["hasAssignments" := VNum (tallySum tally)]> ∅)).

(** The callback of [sorted.map]; reading [content.content_id] of
    [undefined] throws a [TypeError] ([None]). *)
Definition tableRow (content : option obj) : option obj :=
  match content with
  | Some c => Some (Object_assign (derivedFields c) c)
  | None => None
  end.

(** The computed property [table]; [None] when a callback has thrown. *)
Definition table : option (list obj) := mapM tableRow sorted.

End Page.

End ReportsLessonReportPage.

(** ** Sample data *)

Module Samples.
Import JS.

(** lodash's [compareAscending] on two strings, two booleans or two
    numbers, and on [null] and [undefined], which sort after every other
    value ([undefined] last).  Other pairs, which JavaScript compares after
    conversions, are not told apart by this instance. *)
Definition compareAscendingPrimitive (value other : value) : Z :=
  match value, other with
  | VStr s, VStr t =>
      match String.compare s t with Lt => -1 | Eq => 0 | Gt => 1 end
  | VBool a, VBool b => Z.b2z a - Z.b2z b
  | VNum a, VNum b => Z.sgn (a - b)
  | VUndefined, VUndefined => 0
  | VUndefined, _ => 1
  | _, VUndefined => -1
  | VNull, VNull => 0
  | VNull, _ => 1
  | _, VNull => -1
  | _, _ => 0
  end.

Definition lesson (id title : string) (active : bool) : obj :=
  <["id" := VStr id]>
  (<["title" := VStr title]>
  (<["active" := VBool active]>
  (<["groups" := VArr []]> ∅))).

Definition lessons : list obj :=
  [lesson "l1" "Fractions" true; lesson "l2" "Algebra" false;
   lesson "l3" "Fractions" true].

Definition getLearnersForLesson (lesson : obj) : list value :=
  [VStr "u1"; VStr "u2"].

Definition getLessonStatusTally (lessonId : value) (learners : list value) : value :=
  VObj ∅.

Definition getGroupNames (groups : value) : value := VArr [].

Definition content (node_id content_id title kind : string) : obj :=
  <["node_id" := VStr node_id]>
  (<["content_id" := VStr content_id]>
  (<["title" := VStr title]>
  (<["kind" := VStr kind]> ∅))).

Definition node_ids : list string := ["n1"; "n2"; "n3"].

Definition contentNodeMap : gmap string obj :=
  <["n1" := content "n1" "c1" "Reading" "document"]>
  (<["n2" := content "n2" "c2" "Practice" "exercise"]>
  (<["n3" := content "n3" "c3" "Reading" "video"]> ∅)).

Definition recipients : list value := [VStr "u1"; VStr "u2"; VStr "u3"].

Definition getContentStatusTally (contentId : value) (learners : list value)
  : Coach.Tally :=
  {| Coach.notStarted := 1; Coach.inProgress := 1;
     Coach.completed := 1; Coach.needsHelp := 0 |}.

Definition getContentAvgTimeSpent (contentId : value) (learners : list value)
  : value := VNum 0.

(** The scenario of the spec: ten recipients, of whom four have completed
    the item, three are in progress, two have a not-started record and one
    ([u10]) has no record. *)
Definition learnerIds : list string :=
  ["u1"; "u2"; "u3"; "u4"; "u5"; "u6"; "u7"; "u8"; "u9"; "u10"].

Definition record (s : Coach.Status) (t : option Z) : Coach.CompletionRecord :=
  {| Coach.status := s; Coach.timeSpent := t |}.

Definition records : Coach.Records :=
  list_to_map
    [(("u1", "c1"), record Coach.Completed (Some 120));
     (("u2", "c1"), record Coach.Completed (Some 60));
     (("u3", "c1"), record Coach.Completed None);
     (("u4", "c1"), record Coach.Completed (Some 90));
     (("u5", "c1"), record Coach.InProgress (Some 30));
     (("u6", "c1"), record Coach.InProgress None);
     (("u7", "c1"), record Coach.InProgress (Some 15));
     (("u8", "c1"), record Coach.NotStarted None);
     (("u9", "c1"), record Coach.NotStarted None);
     (("u1", "c2"), record Coach.NeedsHelp None)].

End Samples.

(** ** SelectedResourcesSize.vue: the mode *)

Module SelectedResourcesSizeMode.

(** The validator of the [mode] prop:
    [return val === 'import' || val === 'export'] *)
Definition validator (val : string) : bool :=
  String.eqb val "import" || String.eqb val "export".

(** [return this.mode === 'import'] *)
Definition isInImportMode (mode : string) : bool := String.eqb mode "import".

(** The messages of [$trs] that name the mode. *)
Definition trs : gmap string string :=
  <["chooseContentToExport" := "Choose content to export"]>
  (<["chooseContentToImport" := "Choose content to import"]>
  (<["export" := "export"]>
  (<["import" := "import"]> ∅))).

(** [this.$tr(id)] in the default locale: the message of [$trs]. *)
Definition tr (id : string) : string := default "" (trs !! id).

(** [return this.isInImportMode ? this.$tr('import') : this.$tr('export')] *)
Definition buttonText (mode : string) : string :=
  if isInImportMode mode then tr "import" else tr "export".

(** The heading: [<h3 v-if="isInImportMode">] with
    [$tr('chooseContentToImport')], [<h3 v-else>] with
    [$tr('chooseContentToExport')]. *)
Definition chooseMessage (mode : string) : string :=
  if isInImportMode mode then tr "chooseContentToImport"
  else tr "chooseContentToExport".

End SelectedResourcesSizeMode.

(** ** ReportsLessonListPage.vue: the filter, its options and the empty
       message *)

Module ReportsLessonListPageFilter.
Import JS.

(** [this.filter.value].  Reading a property of [undefined] or [null]
    throws ([None]); a string, number, boolean or array has no property
    [value]. *)
Definition filterValue (filter : value) : option value :=
  match filter with
  | VObj o => Some (get "value" o)
  | VUndefined | VNull => None
  | _ => Some VUndefined
  end.

(** [data()]: [filter: 'allLessons'] *)
Definition data_filter : value := VStr "allLessons".

Section Page.

(** [coachString] and [coreString] come with the mixins; [$tr] reads the
    page's [$trs]. *)
Variable coachString : string -> string.
Variable coreString : string -> string.

(** The page's [$trs]. *)
Definition trs : gmap string string :=
  <["activeLessons" := "Active lessons"]>
  (<["inactiveLessons" := "Inactive lessons"]>
  (<["noActiveLessons" := "No active lessons"]>
  (<["noInactiveLessons" := "No inactive lessons"]> ∅))).

(** [this.$tr(id)] in the default locale: the message of [$trs]. *)
Definition tr (id : string) : string := default "" (trs !! id).

(** The computed property [emptyMessage]. *)
Definition emptyMessage (filter : value) : option string :=
  match filterValue filter with
  | None => None
  | Some v =>
      Some (if strict_eq_str v "allLessons" then coachString "lessonListEmptyState"
            else if strict_eq_str v "activeLessons" then tr "noActiveLessons"
            else if strict_eq_str v "inactiveLessons" then tr "noInactiveLessons"
            else "")
  end.

(** One entry of [filterOptions]: [{ label: ..., value: ... }] *)
Definition option_ (label value : string) : obj :=
  <["label" := VStr label]> (<["value" := VStr value]> ∅).

(** The computed property [filterOptions]. *)
Definition filterOptions : list obj :=
  [option_ (coreString "allLessonsLabel") "allLessons";
   option_ (tr "activeLessons") "activeLessons";
   option_ (tr "inactiveLessons") "inactiveLessons"].

(** [beforeMount()]: the value given to [this.filter] by
    [this.filter = this.filterOptions[0]] *)
Definition beforeMount : value :=
  match filterOptions with
  | first :: _ => VObj first
  | [] => VUndefined
  end.

(** Getters of the [commonCoach] mixin and lodash's comparison, as for the
    table. *)
Variable getLearnersForLesson : obj -> list value.
Variable getLessonStatusTally : value -> list value -> value.
Variable getGroupNames : value -> value.
Variable compareAscending : value -> value -> Z.

(** The computed property [table], from the component's [filter].  The
    filter callback reads [this.filter.value] once per lesson, so nothing is
    read, and nothing thrown, when there is no lesson. *)
Definition pageTable (lessons : list obj) (filter : value) : option (list obj) :=
  match lessons with
  | [] => Some []
  | _ :: _ =>
      match filterValue filter with
      | None => None
      | Some v =>
          Some (ReportsLessonListPage.table getLearnersForLesson
                  getLessonStatusTally getGroupNames compareAscending lessons v)
      end
  end.

End Page.

End ReportsLessonListPageFilter.

(** ** ReportsLessonReportPage.vue: the title cell *)

Module ReportsLessonReportPageCell.
Import JS.

(** What the first cell of a row shows: a link to the learner list of an
    exercise or of a resource (each with the id put in the route), or the
    bare title. *)
Inductive TitleCell : Type :=
| ExerciseLearnerListLink (exerciseId : value) (text : value)
| ResourceLearnerListLink (resourceId : value) (text : value)
| TitleText (text : value).

(** The [v-if] / [v-else-if] / [v-else] chain of the cell:
    [tableRow.kind === 'exercise' && tableRow.hasAssignments], then
    [tableRow.hasAssignments], then the template with the title. *)
Definition titleCell (tableRow : obj) : TitleCell :=
  if strict_eq_str (get "kind" tableRow) "exercise"
     && ToBoolean (get "hasAssignments" tableRow)
  then ExerciseLearnerListLink (get "content_id" tableRow) (get "title" tableRow)
  else if ToBoolean (get "hasAssignments" tableRow)
  then ResourceLearnerListLink (get "content_id" tableRow) (get "title" tableRow)
  else TitleText (get "title" tableRow).

End ReportsLessonReportPageCell.

(** ** Consistent comparisons *)

Module Comparers.

(** A comparison that is consistent on the elements of a domain: turning
    the arguments round turns the sign round, and "not greater" passes
    along. *)
Definition consistentOn {A : Type} (D : A -> Prop) (c : A -> A -> Z) : Prop :=
  (forall x y, D x -> D y -> Z.sgn (c y x) = - Z.sgn (c x y)) /\
  (forall x y z, D x -> D y -> D z -> c x y <= 0 -> c y z <= 0 -> c x z <= 0).

End Comparers.

(** ** ReportsLessonListPage.vue: the table over a store

    The same computed [table], with the objects and arrays it reads and
    creates held in a store, so that what a call writes can be told from
    what it leaves alone. *)

Module ReportsLessonListPageRun.
Import JS.

(** A place in the store. *)
Abbreviation loc := nat.

(** What a place holds: an object, an array of objects (each by its place),
    or the component instance with its [lessons] and its [filter]. *)
Inductive cell : Type :=
| Obj (o : obj)
| Arr (items : list loc)
| Instance (lessons : loc) (filter : value).

(** The store; a new object or array takes the next free place. *)
Abbreviation store := (list cell).

Definition alloc (c : cell) (h : store) : loc * store := (length h, h ++ [c]).

Definition readObj (h : store) (l : loc) : option obj :=
  match h !! l with
  | Some (Obj o) => Some o
  | _ => None
  end.

Definition readArr (h : store) (l : loc) : option (list loc) :=
  match h !! l with
  | Some (Arr items) => Some items
  | _ => None
  end.

Definition readInstance (h : store) (l : loc) : option (loc * value) :=
  match h !! l with
  | Some (Instance lessons filter) => Some (lessons, filter)
  | _ => None
  end.

(** The objects of an array, in its order. *)
Definition readRows (h : store) (array : loc) : option (list obj) :=
  match readArr h array with
  | Some items => mapM (readObj h) items
  | None => None
  end.

(** [array.filter(callback)] over places; a callback that throws ([None])
    ends the call. *)
Fixpoint Array_filter_run (callback : loc -> option value) (items : list loc)
  : option (list loc) :=
  match items with
  | [] => Some []
  | l :: rest =>
      match callback l with
      | None => None
      | Some v =>
          match Array_filter_run callback rest with
          | None => None
          | Some kept => Some (if ToBoolean v then l :: kept else kept)
          end
      end
  end.

(** [array.map(callback)] over places, the callback working on the store. *)
Fixpoint Array_map_run (callback : loc -> store -> option (loc * store))
    (items : list loc) (h : store) : option (list loc * store) :=
  match items with
  | [] => Some ([], h)
  | l :: rest =>
      match callback l h with
      | None => None
      | Some (r, h1) =>
          match Array_map_run callback rest h1 with
          | None => None
          | Some (rs, h2) => Some (r :: rs, h2)
          end
      end
  end.

(** [Object.assign(target, source)] in the store: the object at [target] is
    overwritten with the properties of the object at [source] laid over its
    own; [source] is only read. *)
Definition Object_assign_run (target source : loc) (h : store)
  : option (loc * store) :=
  match readObj h target, readObj h source with
  | Some t, Some s => Some (target, <[target := Obj (Object_assign t s)]> h)
  | _, _ => None
  end.

(** [_.property(name)] on the lesson at a place. *)
Definition property_run (h : store) (name : string) (l : loc) : value :=
  match readObj h l with
  | Some o => get name o
  | None => VUndefined
  end.

Section Page.

(** Getters of the [commonCoach] mixin, used as given: functions of the
    lesson they are handed. *)
Variable getLearnersForLesson : obj -> list value.
Variable getLessonStatusTally : value -> list value -> value.
Variable getGroupNames : value -> value.

(** lodash's comparison of two sort criteria. *)
Variable compareAscending : value -> value -> Z.

(** The callback of [this.lessons.filter] on the lesson at a place: it
    reads [this.filter.value] and the lesson. *)
Definition filterCallback_run (h : store) (filter : value) (lesson : loc)
  : option value :=
  match ReportsLessonListPageFilter.filterValue filter with
  | None => None
  | Some v =>
      match readObj h lesson with
      | None => None
      | Some o => Some (ReportsLessonListPage.filterCallback v o)
      end
  end.

(** [const filtered = this.lessons.filter(...)]: a new array. *)
Definition filtered_run (this : loc) (h : store) : option (loc * store) :=
  match readInstance h this with
  | None => None
  | Some (lessons, filter) =>
      match readArr h lessons with
      | None => None
      | Some items =>
          match Array_filter_run (filterCallback_run h filter) items with
          | None => None
          | Some kept => Some (alloc (Arr kept) h)
          end
      end
  end.

(** [const sorted = this._.sortBy(filtered, ['title', 'active'])]: a new
    array. *)
Definition sorted_run (filtered : loc) (h : store) : option (loc * store) :=
  match readArr h filtered with
  | None => None
  | Some items =>
      Some (alloc (Arr (Lodash.sortBy (property_run h) compareAscending items
                          ["title"; "active"])) h)
  end.

(** The callback of [sorted.map]: [const tableRow = {...}] makes a new
    object, [Object.assign(tableRow, lesson)] writes to it, and it is
    returned. *)
Definition tableRow_run (lesson : loc) (h : store) : option (loc * store) :=
  match readObj h lesson with
  | None => None
  | Some o =>
      let (tableRow, h1) :=
        alloc (Obj (ReportsLessonListPage.derivedFields getLearnersForLesson
                      getLessonStatusTally getGroupNames o)) h in
      Object_assign_run tableRow lesson h1
  end.

(** The computed property [table] of the instance at [this]: the place of
    the array of rows, and the store after the call. *)
Definition table_run (this : loc) (h : store) : option (loc * store) :=
  match filtered_run this h with
  | None => None
  | Some (filtered, h1) =>
      match sorted_run filtered h1 with
      | None => None
      | Some (sorted, h2) =>
          match readArr h2 sorted with
          | None => None
          | Some items =>
              match Array_map_run tableRow_run items h2 with
              | None => None
              | Some (rows, h3) => Some (alloc (Arr rows) h3)
              end
          end
      end
  end.

End Page.

End ReportsLessonListPageRun.

(** ** A sample store *)

Module StoreSamples.
Import JS ReportsLessonListPageRun.

(** The three sample lessons at places 0 to 2, the array [this.lessons] at
    place 3, and at place 4 the instance, its [filter] being the first
    option of the select. *)
Definition h0 : store :=
  [Obj (Samples.lesson "l1" "Fractions" true);
   Obj (Samples.lesson "l2" "Algebra" false);
   Obj (Samples.lesson "l3" "Fractions" true);
   Arr [0%nat; 1%nat; 2%nat];
   Instance 3 (VObj (ReportsLessonListPageFilter.option_ "All lessons" "allLessons"))].

Definition this : loc := 4%nat.

End StoreSamples.

(** ** Numbers and property reads of the language *)

Module Language.
Import JS.

(** [Number.MAX_SAFE_INTEGER], 2^53 - 1: up to it the integers are numbers
    of the language one by one, and sums and differences that stay within
    it are exact. *)
Definition MAX_SAFE_INTEGER : Z := 2 ^ 53 - 1.

(** [Number.isSafeInteger(z)] for an integer [z]. *)
Definition isSafeInteger (z : Z) : Prop :=
  - MAX_SAFE_INTEGER <= z <= MAX_SAFE_INTEGER.

(** The names every plain object answers to through [Object.prototype]. *)
Definition inheritedNames : list string :=
  ["constructor"; "hasOwnProperty"; "isPrototypeOf"; "propertyIsEnumerable";
   "toLocaleString"; "toString"; "valueOf"; "__proto__";
   "__defineGetter__"; "__defineSetter__"; "__lookupGetter__";
   "__lookupSetter__"].

(** What [map[name]] finds in a plain object used as a map: an entry of the
    map itself, a member of [Object.prototype], or nothing ([undefined]). *)
Inductive Member (A : Type) : Type :=
| OwnEntry (a : A)
| InheritedMember
| NoMember.

Arguments OwnEntry {A} _.
Arguments InheritedMember {A}.
Arguments NoMember {A}.

(** [map[name]] *)
Definition readMember {A : Type} (map : gmap string A) (name : string) : Member A :=
  match map !! name with
  | Some a => OwnEntry a
  | None =>
      if bool_decide (name ∈ inheritedNames) then InheritedMember else NoMember
  end.

End Language.

(** * Part II: properties *)

(** A closed equation between values, settled by its decision procedure. *)
Ltac by_computation :=
  cbv zeta; apply (bool_decide_unpack _); vm_compute; exact I.

(** ** Values and objects *)

Section ValueFacts.
Import JS.

Lemma strict_eq_str_true v lit : strict_eq_str v lit = true <-> v = VStr lit.
Proof.
  destruct v; simpl; try (split; [discriminate | congruence]).
  rewrite String.eqb_eq. split; congruence.
Qed.

Lemma strict_eq_str_false v lit : strict_eq_str v lit = false <-> v <> VStr lit.
Proof.
  rewrite <- strict_eq_str_true. destruct (strict_eq_str v lit); split; congruence.
Qed.

Lemma lookup_Object_assign (target source : obj) k :
  Object_assign target source !! k =
    match source !! k with
    | Some v => Some v
    | None => target !! k
    end.
Proof.
  unfold Object_assign. rewrite lookup_union.
  destruct (source !! k), (target !! k); reflexivity.
Qed.

Lemma get_Object_assign_source (target source : obj) k v :
  source !! k = Some v -> get k (Object_assign target source) = v.
Proof. intros H. unfold get. rewrite lookup_Object_assign, H. reflexivity. Qed.

Lemma get_Object_assign_target (target source : obj) k :
  source !! k = None -> get k (Object_assign target source) = get k target.
Proof. intros H. unfold get. rewrite lookup_Object_assign, H. reflexivity. Qed.

End ValueFacts.

(** ** The sort *)

Section ArraySortFacts.
Import JS.
Context {A : Type} (comparer : A -> A -> Z).

Lemma insert_Permutation x l : Permutation (insert comparer x l) (x :: l).
Proof.
  induction l as [| y l IH]; simpl.
  - reflexivity.
  - destruct (0 <? comparer x y).
    + rewrite IH. apply perm_swap.
    + reflexivity.
Qed.

Lemma Array_sort_Permutation l : Permutation (Array_sort comparer l) l.
Proof.
  induction l as [| x l IH]; simpl.
  - reflexivity.
  - rewrite insert_Permutation. apply perm_skip, IH.
Qed.

Lemma Array_sort_length l : length (Array_sort comparer l) = length l.
Proof. apply Permutation_length, Array_sort_Permutation. Qed.

(** Inserting [x] does not disturb the elements selected by [P] when [x],
    if selected, compares no greater than any selected element. *)
Lemma filter_insert (P : A -> bool) x s :
  (P x = true -> Forall (fun y => P y = true -> comparer x y <= 0) s) ->
  List.filter P (insert comparer x s) = List.filter P (x :: s).
Proof.
  induction s as [| y s IH]; intros Hx.
  - reflexivity.
  - simpl. destruct (Z.ltb_spec 0 (comparer x y)) as [Hgt | Hle].
    + simpl. rewrite IH.
      * simpl. destruct (P x) eqn:Px; [| reflexivity].
        destruct (P y) eqn:Py; [| reflexivity].
        specialize (Hx eq_refl). inversion Hx as [| ? ? Hy _]; subst.
        specialize (Hy Py). lia.
      * intros Px. specialize (Hx Px). inversion Hx; assumption.
    + reflexivity.
Qed.

(** The elements selected by [P] keep their order through the sort when
    any two of them, taken in input order, compare no greater. *)
Lemma filter_Array_sort (P : A -> bool) l :
  ForallOrdPairs (fun x y => P x = true -> P y = true -> comparer x y <= 0) l ->
  List.filter P (Array_sort comparer l) = List.filter P l.
Proof.
  induction 1 as [| x l Hx _ IH].
  - reflexivity.
  - change (Array_sort comparer (x :: l))
      with (insert comparer x (Array_sort comparer l)).
    rewrite filter_insert.
    + simpl. rewrite IH. reflexivity.
    + intros Px.
      eapply Permutation_Forall.
      * symmetry. apply Array_sort_Permutation.
      * eapply Forall_impl; [| exact Hx]. simpl. intros y Hy Py. auto.
Qed.

End ArraySortFacts.

Section SortByFacts.
Import JS Lodash.
Context {A : Type} (property : string -> A -> value).
Context (compareAscending : value -> value -> Z).

(** lodash's [compareAscending] starts with [if (value !== other)] and
    otherwise returns 0. *)
Hypothesis compareAscending_same : forall v, compareAscending v v = 0.

Lemma compareCriteria_same k : compareCriteria compareAscending k k = 0.
Proof.
  induction k as [| v k IH]; simpl.
  - reflexivity.
  - rewrite compareAscending_same. simpl. exact IH.
Qed.

Lemma compareMultiple_same_criteria (x y : @Decorated A) :
  criteria x = criteria y ->
  compareMultiple compareAscending x y = index x - index y.
Proof.
  intros E. unfold compareMultiple. rewrite E, compareCriteria_same. reflexivity.
Qed.

Lemma decorateFrom_index_ge i its (l : list A) :
  Forall (fun d => i <= index d) (decorateFrom property i its l).
Proof.
  revert i. induction l as [| x l IH]; intros i; simpl.
  - constructor.
  - constructor; simpl; [lia |].
    eapply Forall_impl; [| apply (IH (i + 1))]. simpl. intros d Hd. lia.
Qed.

Lemma decorateFrom_index_increasing i its (l : list A) :
  ForallOrdPairs (fun x y => index x < index y) (decorateFrom property i its l).
Proof.
  revert i. induction l as [| x l IH]; intros i; simpl.
  - constructor.
  - constructor; [| apply IH].
    eapply Forall_impl; [| apply (decorateFrom_index_ge (i + 1))].
    simpl. intros d Hd. lia.
Qed.

Lemma decorateFrom_criteria i its (l : list A) :
  Forall (fun d => criteria d = criteriaOf property its (dvalue d))
    (decorateFrom property i its l).
Proof.
  revert i. induction l as [| x l IH]; intros i; simpl; constructor; auto.
Qed.

Lemma map_dvalue_decorateFrom i its (l : list A) :
  map dvalue (decorateFrom property i its l) = l.
Proof.
  revert i. induction l as [| x l IH]; intros i; simpl; [| rewrite IH]; reflexivity.
Qed.

Lemma ForallOrdPairs_impl {B : Type} (R S : B -> B -> Prop) (l : list B) :
  (forall x y, R x y -> S x y) -> ForallOrdPairs R l -> ForallOrdPairs S l.
Proof.
  intros HRS. induction 1 as [| x l Hx _ IH]; constructor; [| exact IH].
  eapply Forall_impl; [| exact Hx]. apply HRS.
Qed.

Lemma filter_map_comm {B C : Type} (Q : C -> bool) (f : B -> C) (l : list B) :
  List.filter Q (map f l) = map f (List.filter (fun b => Q (f b)) l).
Proof.
  induction l as [| b l IH]; simpl; [reflexivity |].
  destruct (Q (f b)); simpl; rewrite IH; reflexivity.
Qed.

Lemma filter_ext_Forall {B : Type} (P Q : B -> bool) (l : list B) :
  Forall (fun b => P b = Q b) l -> List.filter P l = List.filter Q l.
Proof.
  induction 1 as [| b l Hb _ IH]; simpl; [reflexivity |].
  rewrite Hb, IH. reflexivity.
Qed.

Lemma Permutation_filter_bool {B : Type} (P : B -> bool) (l1 l2 : list B) :
  Permutation l1 l2 -> Permutation (List.filter P l1) (List.filter P l2).
Proof.
  induction 1 as [| b l1 l2 _ IH | b c l | l1 l2 l3 _ IH1 _ IH2]; simpl.
  - reflexivity.
  - destruct (P b); [apply perm_skip |]; exact IH.
  - destruct (P b), (P c); try reflexivity. apply perm_swap.
  - etransitivity; eassumption.
Qed.

Lemma ForallOrdPairs_filter {B : Type} (R : B -> B -> Prop) (P : B -> bool)
    (l : list B) :
  ForallOrdPairs R l ->
  ForallOrdPairs (fun x y => P x = true /\ P y = true /\ R x y) (List.filter P l).
Proof.
  induction 1 as [| b l Hb _ IH]; simpl.
  - constructor.
  - destruct (P b) eqn:Pb; [| exact IH].
    constructor; [| exact IH].
    apply Forall_forall. intros y Hy. apply filter_In in Hy as [Hy Py].
    rewrite Forall_forall in Hb. auto.
Qed.

(** Two arrangements of the same elements, both in the order of a relation
    that is antisymmetric on them, are one list. *)
Lemma ForallOrdPairs_Permutation_eq {B : Type} (R : B -> B -> Prop)
    (l1 l2 : list B) :
  ForallOrdPairs R l1 -> ForallOrdPairs R l2 -> Permutation l1 l2 ->
  (forall x y, In x l1 -> In y l1 -> R x y -> R y x -> x = y) ->
  l1 = l2.
Proof.
  intros H1. revert l2. induction H1 as [| x l1 Hx _ IH]; intros l2 H2 Hp Hanti.
  - apply Permutation_nil in Hp. congruence.
  - destruct H2 as [| y l2 Hy H2].
    + symmetry in Hp. apply Permutation_nil in Hp. discriminate.
    + assert (Exy : x = y).
      { assert (Hxin : In x (y :: l2)) by (eapply Permutation_in; [exact Hp | left; reflexivity]).
        assert (Hyin : In y (x :: l1))
          by (eapply Permutation_in; [symmetry; exact Hp | left; reflexivity]).
        destruct Hxin as [-> | Hxin]; [reflexivity |].
        destruct Hyin as [-> | Hyin]; [reflexivity |].
        rewrite Forall_forall in Hx, Hy.
        apply Hanti; [left; reflexivity | right; exact Hyin | auto | auto]. }
      subst y. f_equal. apply IH.
      * exact H2.
      * eapply Permutation_cons_inv. exact Hp.
      * intros a b Ha Hb. apply Hanti; right; assumption.
Qed.

Lemma decorateFrom_index_inj i its (l : list A) x y :
  In x (decorateFrom property i its l) ->
  In y (decorateFrom property i its l) ->
  index x = index y -> x = y.
Proof.
  intros Hx Hy E.
  destruct (ForallOrdPairs_In (decorateFrom_index_increasing i its l) _ _ Hx Hy)
    as [H | [H | H]]; [exact H | lia | lia].
Qed.

(** On decorated elements, selecting by the stored criteria and then taking
    the values is selecting the values by their criteria. *)
Lemma filter_hasCriteria_decorated its k (ds : list (@Decorated A)) :
  Forall (fun d => criteria d = criteriaOf property its (dvalue d)) ds ->
  List.filter (hasCriteria property its k) (map dvalue ds)
  = map dvalue (List.filter (fun d => bool_decide (criteria d = k)) ds).
Proof.
  intros H. rewrite filter_map_comm. f_equal. apply filter_ext_Forall.
  eapply Forall_impl; [| exact H]. simpl. intros d Hd.
  unfold hasCriteria. rewrite Hd. reflexivity.
Qed.

(** Stability does not rest on the algorithm of [array.sort]: whatever
    arrangement of the decorated elements the engine returns within the
    contract [isSortOf], the elements that share given criteria come out in
    the order they came in.  The [index] of [compareMultiple] decides. *)
Lemma sortBy_stable_any_engine (l : list A) its k (out : list (@Decorated A)) :
  isSortOf (compareMultiple compareAscending) (decorateFrom property 0 its l) out ->
  List.filter (hasCriteria property its k) (map dvalue out)
  = List.filter (hasCriteria property its k) l.
Proof.
  intros [Hperm Hsorted].
  set (dl := decorateFrom property 0 its l) in *.
  set (P := fun d : @Decorated A => bool_decide (criteria d = k)).
  assert (Hcrit : Forall (fun d => criteria d = criteriaOf property its (dvalue d)) dl)
    by apply decorateFrom_criteria.
  rewrite filter_hasCriteria_decorated
    by (eapply Permutation_Forall; [symmetry; exact Hperm | exact Hcrit]).
  rewrite <- (map_dvalue_decorateFrom 0 its l) at 1. fold dl.
  rewrite (filter_hasCriteria_decorated its k dl Hcrit). f_equal. fold P.
  apply (ForallOrdPairs_Permutation_eq (fun x y => index x <= index y)).
  - eapply ForallOrdPairs_impl; [| apply ForallOrdPairs_filter; exact Hsorted].
    simpl. intros x y (Px & Py & Hxy). unfold P in Px, Py.
    apply bool_decide_eq_true in Px, Py.
    rewrite compareMultiple_same_criteria in Hxy by congruence. lia.
  - eapply ForallOrdPairs_impl;
      [| apply ForallOrdPairs_filter, (decorateFrom_index_increasing 0 its l)].
    simpl. intros x y (_ & _ & Hxy). lia.
  - apply Permutation_filter_bool. exact Hperm.
  - intros x y Hx Hy Hxy Hyx.
    apply filter_In in Hx as [Hx _], Hy as [Hy _].
    apply (decorateFrom_index_inj 0 its l).
    + eapply Permutation_in; [exact Hperm | exact Hx].
    + eapply Permutation_in; [exact Hperm | exact Hy].
    + lia.
Qed.

(** The sort is a permutation of the collection. *)
Lemma sortBy_Permutation (l : list A) its :
  Permutation (sortBy property compareAscending l its) l.
Proof.
  unfold sortBy, baseSortBy.
  rewrite Array_sort_Permutation, map_dvalue_decorateFrom. reflexivity.
Qed.

(** The sort is stable: the elements that share given criteria come out in
    the order they came in. *)
Lemma sortBy_stable (l : list A) its k :
  List.filter (hasCriteria property its k) (sortBy property compareAscending l its)
  = List.filter (hasCriteria property its k) l.
Proof.
  unfold sortBy, baseSortBy.
  set (dl := decorateFrom property 0 its l).
  set (P := fun d : @Decorated A => bool_decide (criteria d = k)).
  rewrite filter_map_comm.
  rewrite (filter_ext_Forall _ P).
  - rewrite filter_Array_sort.
    + rewrite <- (filter_ext_Forall (fun d => hasCriteria property its k (dvalue d)) P).
      * rewrite <- filter_map_comm. unfold dl.
        rewrite map_dvalue_decorateFrom. reflexivity.
      * eapply Forall_impl; [| apply decorateFrom_criteria].
        simpl. intros d Hd. unfold hasCriteria, P. rewrite Hd. reflexivity.
    + eapply ForallOrdPairs_impl; [| apply decorateFrom_index_increasing].
      simpl. intros x y Hlt Px Py. unfold P in Px, Py.
      apply bool_decide_eq_true in Px, Py.
      rewrite compareMultiple_same_criteria by congruence. lia.
  - eapply Permutation_Forall; [symmetry; apply Array_sort_Permutation |].
    eapply Forall_impl; [| apply decorateFrom_criteria].
    simpl. intros d Hd. unfold hasCriteria, P. rewrite Hd. reflexivity.
Qed.

End SortByFacts.

(** The insertion model against the contract of [array.sort]. *)

Section ArraySortContract.
Import JS.
Context {A : Type} (comparer : A -> A -> Z).
Hypothesis comparer_consistent : consistent comparer.

Lemma insert_sortedBy x s :
  sortedBy comparer s -> sortedBy comparer (insert comparer x s).
Proof.
  destruct comparer_consistent as [Hanti Htrans].
  unfold sortedBy. induction 1 as [| y s Hy Hs IH]; simpl.
  - repeat constructor.
  - destruct (Z.ltb_spec 0 (comparer x y)) as [Hgt | Hle].
    + constructor; [| exact IH].
      eapply Permutation_Forall; [symmetry; apply insert_Permutation |].
      constructor; [lia | exact Hy].
    + constructor; [| constructor; assumption].
      constructor.
      * intros Hlt. apply Hanti in Hlt. lia.
      * eapply Forall_impl; [| exact Hy]. simpl. intros z Hz Hlt.
        apply Hz. eapply Htrans; eassumption.
Qed.

(** The model returns an arrangement the contract allows. *)
Lemma Array_sort_isSortOf l : isSortOf comparer l (Array_sort comparer l).
Proof.
  split; [apply Array_sort_Permutation |].
  induction l as [| x l IH]; simpl.
  - constructor.
  - apply insert_sortedBy, IH.
Qed.

(** When the comparer leaves no two distinct elements of [l] unordered, the
    contract allows one arrangement only: the one of the model. *)
Lemma Array_sort_unique l out :
  (forall x y, In x l -> In y l ->
               ~ comparer y x < 0 -> ~ comparer x y < 0 -> x = y) ->
  isSortOf comparer l out ->
  out = Array_sort comparer l.
Proof.
  intros Hties [Hperm Hsorted].
  destruct (Array_sort_isSortOf l) as [Hperm' Hsorted'].
  apply (ForallOrdPairs_Permutation_eq (fun x y => ~ comparer y x < 0)).
  - exact Hsorted.
  - exact Hsorted'.
  - rewrite Hperm, Hperm'. reflexivity.
  - intros x y Hx Hy.
    apply Hties; (eapply Permutation_in; [exact Hperm | assumption]).
Qed.

End ArraySortContract.

(** ** ReportsLessonListPage: the filter step *)

Section LessonListFilter.
Import JS ReportsLessonListPage.

Lemma filter_incl_sublist {B : Type} (P : B -> bool) (l : list B) :
  sublist (List.filter P l) l.
Proof.
  induction l as [| b l IH]; simpl.
  - constructor.
  - destruct (P b); [apply sublist_skip | apply sublist_cons]; exact IH.
Qed.

Lemma filterCallback_all lesson :
  filterCallback (VStr "allLessons") lesson = VBool true.
Proof. reflexivity. Qed.

Lemma filterCallback_active lesson :
  filterCallback (VStr "activeLessons") lesson = get "active" lesson.
Proof. reflexivity. Qed.

Lemma filterCallback_inactive lesson :
  filterCallback (VStr "inactiveLessons") lesson
  = VBool (negb (ToBoolean (get "active" lesson))).
Proof. reflexivity. Qed.

Lemma filterCallback_unrecognized filterValue lesson :
  filterValue <> VStr "allLessons" ->
  filterValue <> VStr "activeLessons" ->
  filterValue <> VStr "inactiveLessons" ->
  filterCallback filterValue lesson = VUndefined.
Proof.
  intros H1 H2 H3. unfold filterCallback.
  apply strict_eq_str_false in H1, H2, H3. rewrite H1, H2, H3. reflexivity.
Qed.

Lemma filtered_all lessons : filtered lessons (VStr "allLessons") = lessons.
Proof.
  unfold filtered, Array_filter.
  induction lessons as [| l ls IH]; [reflexivity |].
  cbn [List.filter]. rewrite filterCallback_all. cbn [ToBoolean].
  f_equal. exact IH.
Qed.

Lemma filtered_unrecognized lessons filterValue :
  filterValue <> VStr "allLessons" ->
  filterValue <> VStr "activeLessons" ->
  filterValue <> VStr "inactiveLessons" ->
  filtered lessons filterValue = [].
Proof.
  intros H1 H2 H3. unfold filtered, Array_filter.
  induction lessons as [| l ls IH]; [reflexivity |].
  cbn [List.filter]. rewrite filterCallback_unrecognized by assumption.
  cbn [ToBoolean]. exact IH.
Qed.

End LessonListFilter.

Section LessonListFilterClaims.
Import JS ReportsLessonListPage.

Context (getLearnersForLesson : obj -> list value).
Context (getLessonStatusTally : value -> list value -> value).
Context (getGroupNames : value -> value).
Context (compareAscending : value -> value -> Z).

#[local] Abbreviation table :=
  (ReportsLessonListPage.table getLearnersForLesson getLessonStatusTally
     getGroupNames compareAscending).

(** An unrecognized filter value empties the table. *)
Lemma table_unrecognized lessons filterValue :
  filterValue <> VStr "allLessons" ->
  filterValue <> VStr "activeLessons" ->
  filterValue <> VStr "inactiveLessons" ->
  table lessons filterValue = [].
Proof.
  intros H1 H2 H3. unfold ReportsLessonListPage.table, sorted.
  rewrite filtered_unrecognized by assumption. reflexivity.
Qed.

End LessonListFilterClaims.

Section LessonListFilterTheorems.
Import JS ReportsLessonListPage.

(** C2 (as amended): for every filter value other than ['allLessons'],
    ['activeLessons'] and ['inactiveLessons'] the filter callback returns
    [undefined] on every lesson, so the filter step keeps no lesson and the
    table has no row. *)
Theorem unrecognized_filter_keeps_nothing
    (getLearnersForLesson : obj -> list value)
    (getLessonStatusTally : value -> list value -> value)
    (getGroupNames : value -> value)
    (compareAscending : value -> value -> Z)
    (lessons : list obj) (filterValue : value) :
  filterValue <> VStr "allLessons" ->
  filterValue <> VStr "activeLessons" ->
  filterValue <> VStr "inactiveLessons" ->
  (forall lesson, filterCallback filterValue lesson = VUndefined) /\
  filtered lessons filterValue = [] /\
  table getLearnersForLesson getLessonStatusTally getGroupNames
    compareAscending lessons filterValue = [].
Proof.
  intros H1 H2 H3. split; [| split].
  - intros lesson. apply filterCallback_unrecognized; assumption.
  - apply filtered_unrecognized; assumption.
  - apply table_unrecognized; assumption.
Qed.

Lemma unrecognized_filter_keeps_nothing_witness :
  filtered Samples.lessons (VStr "archivedLessons") = [] /\
  table Samples.getLearnersForLesson Samples.getLessonStatusTally
    Samples.getGroupNames Samples.compareAscendingPrimitive
    Samples.lessons (VStr "archivedLessons") = [].
Proof.
  apply (unrecognized_filter_keeps_nothing
           Samples.getLearnersForLesson Samples.getLessonStatusTally
           Samples.getGroupNames Samples.compareAscendingPrimitive
           Samples.lessons (VStr "archivedLessons")); discriminate.
Defined.

(** C2 as stated fails: under the unrecognized filter value
    ['archivedLessons'] the three sample lessons do not pass the filter
    step; none is kept. *)
Lemma unrecognized_filter_not_permissive :
  strict_eq_str (VStr "archivedLessons") "allLessons" = false /\
  strict_eq_str (VStr "archivedLessons") "activeLessons" = false /\
  strict_eq_str (VStr "archivedLessons") "inactiveLessons" = false /\
  length Samples.lessons = 3%nat /\
  filtered Samples.lessons (VStr "archivedLessons") = [] /\
  filtered Samples.lessons (VStr "archivedLessons") <> Samples.lessons /\
  table Samples.getLearnersForLesson Samples.getLessonStatusTally
    Samples.getGroupNames Samples.compareAscendingPrimitive
    Samples.lessons (VStr "archivedLessons") = [].
Proof. repeat split; try reflexivity. discriminate. Qed.

Lemma filtered_active_truthy lessons :
  filtered lessons (VStr "activeLessons")
  = List.filter (fun l => ToBoolean (get "active" l)) lessons.
Proof. reflexivity. Qed.

Lemma filtered_inactive_falsy lessons :
  filtered lessons (VStr "inactiveLessons")
  = List.filter (fun l => negb (ToBoolean (get "active" l))) lessons.
Proof. reflexivity. Qed.

(** C8: on lessons whose [active] flag is a boolean, ['activeLessons'] keeps
    exactly those with [active] true and ['inactiveLessons'] exactly those
    with [active] false, each in the order of the input. *)
Theorem active_filters_keep_exactly (lessons : list obj) :
  Forall (fun l => exists b, get "active" l = VBool b) lessons ->
  filtered lessons (VStr "activeLessons")
    = List.filter (fun l => bool_decide (get "active" l = VBool true)) lessons /\
  filtered lessons (VStr "inactiveLessons")
    = List.filter (fun l => bool_decide (get "active" l = VBool false)) lessons /\
  sublist (filtered lessons (VStr "activeLessons")) lessons /\
  sublist (filtered lessons (VStr "inactiveLessons")) lessons.
Proof.
  intros Hb. split; [| split; [| split]].
  - rewrite filtered_active_truthy. apply filter_ext_Forall.
    eapply Forall_impl; [| exact Hb]. simpl. intros l [b ->].
    destruct b; reflexivity.
  - rewrite filtered_inactive_falsy. apply filter_ext_Forall.
    eapply Forall_impl; [| exact Hb]. simpl. intros l [b ->].
    destruct b; reflexivity.
  - apply filter_incl_sublist.
  - apply filter_incl_sublist.
Qed.

Lemma active_filters_keep_exactly_witness :
  let on : obj := <["active" := VBool true]> ∅ in
  let off : obj := <["active" := VBool false]> ∅ in
  filtered [on; off; on] (VStr "activeLessons") = [on; on] /\
  filtered [on; off; on] (VStr "inactiveLessons") = [off].
Proof.
  intros on off.
  destruct (active_filters_keep_exactly [on; off; on]) as (Ha & Hi & _).
  - repeat constructor; eexists; reflexivity.
  - split; [rewrite Ha | rewrite Hi]; reflexivity.
Defined.

Example filtered_active_sample :
  map (get "id") (filtered Samples.lessons (VStr "activeLessons"))
  = [VStr "l1"; VStr "l3"].
Proof. reflexivity. Qed.

End LessonListFilterTheorems.

(** ** ReportsLessonListPage: the rows *)

Section LessonListRows.
Import JS ReportsLessonListPage.

Context (getLearnersForLesson : obj -> list value).
Context (getLessonStatusTally : value -> list value -> value).
Context (getGroupNames : value -> value).
Context (compareAscending : value -> value -> Z).

#[local] Abbreviation derivedFields :=
  (ReportsLessonListPage.derivedFields getLearnersForLesson getLessonStatusTally
     getGroupNames).
#[local] Abbreviation tableRow :=
  (ReportsLessonListPage.tableRow getLearnersForLesson getLessonStatusTally
     getGroupNames).
#[local] Abbreviation table :=
  (ReportsLessonListPage.table getLearnersForLesson getLessonStatusTally
     getGroupNames compareAscending).

Lemma lesson_tableRow_lookup lesson k :
  tableRow lesson !! k =
    match lesson !! k with
    | Some v => Some v
    | None => derivedFields lesson !! k
    end.
Proof. apply lookup_Object_assign. Qed.

Lemma lesson_derivedFields_lookup lesson k :
  k <> "totalLearners" -> k <> "tally" -> k <> "groupNames" ->
  k <> "hasAssignments" ->
  derivedFields lesson !! k = None.
Proof.
  intros H1 H2 H3 H4. unfold ReportsLessonListPage.derivedFields.
  rewrite !lookup_insert_ne by congruence. apply lookup_empty.
Qed.

Lemma lesson_derivedFields_hasAssignments lesson :
  derivedFields lesson !! "hasAssignments"
  = Some (VBool (0 <? Z.of_nat (length (getLearnersForLesson lesson)))).
Proof. reflexivity. Qed.

Lemma lesson_tableRow_carries lesson k v :
  lesson !! k = Some v -> tableRow lesson !! k = Some v.
Proof. intros H. rewrite lesson_tableRow_lookup, H. reflexivity. Qed.

Lemma lesson_tableRow_underived lesson k :
  k <> "totalLearners" -> k <> "tally" -> k <> "groupNames" ->
  k <> "hasAssignments" ->
  tableRow lesson !! k = lesson !! k.
Proof.
  intros H1 H2 H3 H4. rewrite lesson_tableRow_lookup.
  destruct (lesson !! k); [reflexivity |].
  apply lesson_derivedFields_lookup; assumption.
Qed.

Lemma lesson_tableRow_criteria lesson :
  Lodash.criteriaOf get ["title"; "active"] (tableRow lesson)
  = Lodash.criteriaOf get ["title"; "active"] lesson.
Proof.
  unfold Lodash.criteriaOf, get; simpl.
  rewrite !lesson_tableRow_underived by discriminate. reflexivity.
Qed.

Lemma Forall2_map_r_same {B C : Type} (R : B -> C -> Prop) (f : B -> C) (l : list B) :
  (forall b, R b (f b)) -> Forall2 R l (map f l).
Proof. intros H. induction l; simpl; constructor; auto. Qed.

End LessonListRows.

(** ** ReportsLessonReportPage: the rows *)

Section LessonReportRows.
Import JS ReportsLessonReportPage.

Context (node_ids : list string) (contentNodeMap : gmap string obj).
Context (recipients : list value).
Context (getContentStatusTally : value -> list value -> Coach.Tally).
Context (getContentAvgTimeSpent : value -> list value -> value).
Context (compareAscending : value -> value -> Z).

#[local] Abbreviation derivedFields :=
  (ReportsLessonReportPage.derivedFields recipients getContentStatusTally
     getContentAvgTimeSpent).
#[local] Abbreviation tableRow :=
  (ReportsLessonReportPage.tableRow recipients getContentStatusTally
     getContentAvgTimeSpent).
#[local] Abbreviation sorted :=
  (ReportsLessonReportPage.sorted node_ids contentNodeMap compareAscending).
#[local] Abbreviation table :=
  (ReportsLessonReportPage.table node_ids contentNodeMap recipients
     getContentStatusTally getContentAvgTimeSpent compareAscending).

Lemma tallySum_total (t : Coach.Tally) :
  tallySum t
  = Z.of_nat (Coach.notStarted t + Coach.inProgress t
              + Coach.completed t + Coach.needsHelp t).
Proof. unfold tallySum, Coach.tallyValues; simpl. lia. Qed.

Lemma content_tableRow_Some content row :
  tableRow content = Some row <->
  exists c, content = Some c /\ row = Object_assign (derivedFields c) c.
Proof.
  destruct content as [c |]; simpl; split.
  - intros [= <-]. eauto.
  - intros (c' & [= <-] & ->). reflexivity.
  - discriminate.
  - intros (c' & [=] & _).
Qed.

Lemma content_row_lookup (c : obj) k :
  Object_assign (derivedFields c) c !! k =
    match c !! k with
    | Some v => Some v
    | None => derivedFields c !! k
    end.
Proof. apply lookup_Object_assign. Qed.

Lemma content_derivedFields_lookup (c : obj) k :
  k <> "avgTimeSpent" -> k <> "tally" -> k <> "hasAssignments" ->
  derivedFields c !! k = None.
Proof.
  intros H1 H2 H3. unfold ReportsLessonReportPage.derivedFields.
  rewrite !lookup_insert_ne by congruence. apply lookup_empty.
Qed.

Lemma content_derivedFields_hasAssignments (c : obj) :
  derivedFields c !! "hasAssignments"
  = Some (VNum (tallySum (getContentStatusTally (get "content_id" c) recipients))).
Proof. reflexivity. Qed.

Lemma content_row_underived (c : obj) k :
  k <> "avgTimeSpent" -> k <> "tally" -> k <> "hasAssignments" ->
  Object_assign (derivedFields c) c !! k = c !! k.
Proof.
  intros H1 H2 H3. rewrite content_row_lookup.
  destruct (c !! k); [reflexivity |].
  apply content_derivedFields_lookup; assumption.
Qed.

(** When no callback throws, the rows are those of the sorted contents, one
    each and in their order. *)
Lemma table_Some_rows rows :
  table = Some rows ->
  Forall2 (fun content row =>
             exists c, content = Some c /\ row = Object_assign (derivedFields c) c)
    sorted rows.
Proof.
  unfold ReportsLessonReportPage.table. intros H.
  apply mapM_Some in H.
  eapply Forall2_impl; [| exact H]. simpl.
  intros content row Hrow. apply content_tableRow_Some. exact Hrow.
Qed.

(** The table is produced exactly when the map knows every node id. *)
Lemma table_is_Some_iff :
  is_Some table <-> Forall (fun node_id => is_Some (contentNodeMap !! node_id)) node_ids.
Proof.
  unfold ReportsLessonReportPage.table. rewrite mapM_is_Some.
  assert (Hs : Forall (fun c => is_Some (tableRow c)) sorted
               <-> Forall (fun c : option obj => is_Some c) sorted).
  { split; apply Forall_impl; intros [c |] H; simpl in *;
      eauto; destruct H; discriminate. }
  rewrite Hs. unfold ReportsLessonReportPage.sorted.
  split; intros H.
  - eapply Permutation_Forall in H; [| apply sortBy_Permutation].
    unfold contentArray in H. rewrite List.Forall_map in H. exact H.
  - eapply Permutation_Forall; [symmetry; apply sortBy_Permutation |].
    unfold contentArray. rewrite List.Forall_map. exact H.
Qed.

End LessonReportRows.

Lemma sample_report_is_Some :
  is_Some
    (ReportsLessonReportPage.table Samples.node_ids Samples.contentNodeMap
       Samples.recipients Samples.getContentStatusTally
       Samples.getContentAvgTimeSpent Samples.compareAscendingPrimitive).
Proof. apply table_is_Some_iff. by_computation. Qed.

(** ** The rows of both tables *)

Section RowTheorems.
Import JS.

(** C10: every row of either table carries every field of its source item,
    with the item's value: [Object.assign(tableRow, item)] runs after the
    derived fields are set.  So the row's [id], [title], [active] and
    [groups] (and a content's [node_id], [content_id] and [kind]) are the
    item's, and an item with a field of its own named [tally] or
    [hasAssignments] replaces the derived value. *)
Theorem rows_carry_item_fields :
  (forall getLearnersForLesson getLessonStatusTally getGroupNames
          compareAscending lessons filterValue,
     Forall2
       (fun lesson row : obj =>
          (forall k v, lesson !! k = Some v -> row !! k = Some v) /\
          (forall k, In k ["id"; "title"; "active"; "groups"] ->
                     row !! k = lesson !! k) /\
          (forall v, lesson !! "tally" = Some v -> row !! "tally" = Some v) /\
          (forall v, lesson !! "hasAssignments" = Some v ->
                     row !! "hasAssignments" = Some v))
       (ReportsLessonListPage.sorted compareAscending lessons filterValue)
       (ReportsLessonListPage.table getLearnersForLesson getLessonStatusTally
          getGroupNames compareAscending lessons filterValue)) /\
  (forall node_ids contentNodeMap recipients getContentStatusTally
          getContentAvgTimeSpent compareAscending rows,
     ReportsLessonReportPage.table node_ids contentNodeMap recipients
       getContentStatusTally getContentAvgTimeSpent compareAscending = Some rows ->
     Forall2
       (fun (content : option obj) (row : obj) =>
          exists c, content = Some c /\
          (forall k v, c !! k = Some v -> row !! k = Some v) /\
          (forall k, In k ["id"; "title"; "active"; "groups";
                           "node_id"; "content_id"; "kind"] ->
                     row !! k = c !! k) /\
          (forall v, c !! "tally" = Some v -> row !! "tally" = Some v) /\
          (forall v, c !! "hasAssignments" = Some v ->
                     row !! "hasAssignments" = Some v))
       (ReportsLessonReportPage.sorted node_ids contentNodeMap compareAscending)
       rows).
Proof.
  split.
  - intros gL gT gG cmp lessons filterValue.
    unfold ReportsLessonListPage.table. apply Forall2_map_r_same.
    intros lesson. repeat split.
    + intros k v. apply lesson_tableRow_carries.
    + intros k Hk. apply lesson_tableRow_underived;
        intros ->; simpl in Hk; intuition discriminate.
    + intros v. apply lesson_tableRow_carries.
    + intros v. apply lesson_tableRow_carries.
  - intros node_ids cmap recipients gT gA cmp rows Hrows.
    apply table_Some_rows in Hrows.
    eapply Forall2_impl; [| exact Hrows]. simpl.
    intros content row (c & -> & ->). exists c.
    assert (Hc : forall k v, c !! k = Some v ->
              Object_assign
                (ReportsLessonReportPage.derivedFields recipients gT gA c) c !! k
              = Some v).
    { intros k v H. rewrite content_row_lookup, H. reflexivity. }
    repeat split; auto.
    intros k Hk. apply content_row_underived;
      intros ->; simpl in Hk; intuition discriminate.
Qed.

Lemma rows_carry_item_fields_witness :
  exists rows,
    ReportsLessonReportPage.table Samples.node_ids Samples.contentNodeMap
      Samples.recipients Samples.getContentStatusTally
      Samples.getContentAvgTimeSpent Samples.compareAscendingPrimitive
    = Some rows /\
    Forall2
      (fun (content : option obj) (row : obj) =>
         exists c, content = Some c /\
                   row !! "title" = c !! "title" /\ row !! "kind" = c !! "kind")
      (ReportsLessonReportPage.sorted Samples.node_ids Samples.contentNodeMap
         Samples.compareAscendingPrimitive)
      rows.
Proof.
  destruct sample_report_is_Some as [rows E].
  exists rows. split; [exact E |].
  eapply Forall2_impl; [| exact (proj2 rows_carry_item_fields _ _ _ _ _ _ _ E)].
  simpl. intros content row (c & Hc & _ & Hk & _). exists c.
  split; [exact Hc |]. split; apply Hk; simpl; tauto.
Defined.

Example lesson_field_replaces_derived :
  let lesson : obj :=
    <["hasAssignments" := VStr "own"]> (Samples.lesson "l1" "Fractions" true) in
  ReportsLessonListPage.table Samples.getLearnersForLesson
    Samples.getLessonStatusTally Samples.getGroupNames
    Samples.compareAscendingPrimitive [lesson] (VStr "allLessons")
  = [<["totalLearners" := VNum 2]>
     (<["tally" := VObj ∅]> (<["groupNames" := VArr []]> lesson))].
Proof. by_computation. Qed.

End RowTheorems.

Section HasAssignmentsTheorems.
Import JS.

(** C3 (as amended): for an item with no field of its own named
    [hasAssignments], the row's [hasAssignments] is, in the lesson list, the
    boolean "the number of learners of the lesson is greater than zero",
    and, in the lesson report, the number that is the sum of the four tally
    counts (not a boolean), which is truthy iff that sum is greater than
    zero. *)
Theorem hasAssignments_derivation :
  (forall getLearnersForLesson getLessonStatusTally getGroupNames
          compareAscending lessons filterValue,
     Forall2
       (fun lesson row : obj =>
          lesson !! "hasAssignments" = None ->
          row !! "hasAssignments"
          = Some (VBool (bool_decide
                           (0 < length (getLearnersForLesson lesson))%nat)))
       (ReportsLessonListPage.sorted compareAscending lessons filterValue)
       (ReportsLessonListPage.table getLearnersForLesson getLessonStatusTally
          getGroupNames compareAscending lessons filterValue)) /\
  (forall node_ids contentNodeMap recipients getContentStatusTally
          getContentAvgTimeSpent compareAscending rows,
     ReportsLessonReportPage.table node_ids contentNodeMap recipients
       getContentStatusTally getContentAvgTimeSpent compareAscending = Some rows ->
     Forall2
       (fun (content : option obj) (row : obj) =>
          exists c, content = Some c /\
          (c !! "hasAssignments" = None ->
           let t := getContentStatusTally (get "content_id" c) recipients in
           let total := (Coach.notStarted t + Coach.inProgress t
                         + Coach.completed t + Coach.needsHelp t)%nat in
           row !! "hasAssignments" = Some (VNum (Z.of_nat total)) /\
           (ToBoolean (VNum (Z.of_nat total)) = true <-> (0 < total)%nat)))
       (ReportsLessonReportPage.sorted node_ids contentNodeMap compareAscending)
       rows).
Proof.
  split.
  - intros gL gT gG cmp lessons filterValue.
    unfold ReportsLessonListPage.table. apply Forall2_map_r_same.
    intros lesson Hnone.
    rewrite lesson_tableRow_lookup, Hnone, lesson_derivedFields_hasAssignments.
    do 2 f_equal.
    destruct (Z.ltb_spec 0 (Z.of_nat (length (gL lesson)))) as [H | H].
    + symmetry. apply bool_decide_eq_true. lia.
    + symmetry. apply bool_decide_eq_false. lia.
  - intros node_ids cmap recipients gT gA cmp rows Hrows.
    apply table_Some_rows in Hrows.
    eapply Forall2_impl; [| exact Hrows]. simpl.
    intros content row (c & -> & ->). exists c. split; [reflexivity |].
    intros Hnone. split.
    + rewrite content_row_lookup, Hnone, content_derivedFields_hasAssignments.
      rewrite tallySum_total. reflexivity.
    + simpl. rewrite Bool.negb_true_iff, Z.eqb_neq. lia.
Qed.

Lemma hasAssignments_derivation_witness :
  exists rows,
    ReportsLessonReportPage.table Samples.node_ids Samples.contentNodeMap
      Samples.recipients Samples.getContentStatusTally
      Samples.getContentAvgTimeSpent Samples.compareAscendingPrimitive
    = Some rows /\
    Forall2
      (fun (content : option obj) (row : obj) =>
         exists c, content = Some c /\
                   (c !! "hasAssignments" = None ->
                    row !! "hasAssignments" = Some (VNum 3)))
      (ReportsLessonReportPage.sorted Samples.node_ids Samples.contentNodeMap
         Samples.compareAscendingPrimitive)
      rows.
Proof.
  destruct sample_report_is_Some as [rows E].
  exists rows. split; [exact E |].
  eapply Forall2_impl; [| exact (proj2 hasAssignments_derivation _ _ _ _ _ _ _ E)].
  simpl. intros content row (c & Hc & Hrow). exists c.
  split; [exact Hc |]. intros Hnone. apply Hrow in Hnone as [Hnum _]. exact Hnum.
Defined.

(** C3 as stated fails: in the lesson report the field is not a boolean.
    With the sample tally, whose counts sum to 3, every row holds the
    number 3, not [true]. *)
Lemma hasAssignments_is_a_number :
  option_map (map (fun row : obj => row !! "hasAssignments"))
    (ReportsLessonReportPage.table Samples.node_ids Samples.contentNodeMap
       Samples.recipients Samples.getContentStatusTally
       Samples.getContentAvgTimeSpent Samples.compareAscendingPrimitive)
  = Some [Some (VNum 3); Some (VNum 3); Some (VNum 3)] /\
  0 < ReportsLessonReportPage.tallySum
        (Samples.getContentStatusTally VUndefined Samples.recipients) /\
  Some (VNum 3) <> Some (VBool true).
Proof.
  split; [vm_compute; reflexivity |].
  split; [reflexivity | discriminate].
Qed.

End HasAssignmentsTheorems.

(** ** The sort step of both tables *)

Section SortStepTheorems.
Import JS.

Lemma Forall2_filter_related {B C : Type} (R : B -> C -> Prop)
    (P : B -> bool) (Q : C -> bool) (l : list B) (k : list C) :
  Forall2 (fun b c => R b c /\ P b = Q c) l k ->
  Forall2 R (List.filter P l) (List.filter Q k).
Proof.
  induction 1 as [| b c l k [Hr Hpq] _ IH]; simpl.
  - constructor.
  - rewrite Hpq. destruct (Q c); [constructor |]; assumption.
Qed.

Lemma compareAscendingPrimitive_same v : Samples.compareAscendingPrimitive v v = 0.
Proof.
  destruct v; simpl; try reflexivity.
  - lia.
  - rewrite Z.sub_diag. reflexivity.
  - pose proof (String.compare_antisym s s) as H.
    destruct (String.compare s s); simpl in H; try discriminate; reflexivity.
Qed.

(** C7: the sort step of either table is stable.  The items that share a
    tuple of sort keys ([title] and [active] of a lesson, [title] of a
    content) come out of [sortBy] in the order they went in, and their rows
    are emitted in that order.  This holds for the insertion model of
    [array.sort] and for any other arrangement within its contract. *)
Theorem sort_step_is_stable (compareAscending : value -> value -> Z) :
  (forall v, compareAscending v v = 0) ->
  (forall getLearnersForLesson getLessonStatusTally getGroupNames
          lessons filterValue k,
     List.filter (Lodash.hasCriteria get ["title"; "active"] k)
       (ReportsLessonListPage.sorted compareAscending lessons filterValue)
     = List.filter (Lodash.hasCriteria get ["title"; "active"] k)
         (ReportsLessonListPage.filtered lessons filterValue) /\
     List.filter (Lodash.hasCriteria get ["title"; "active"] k)
       (ReportsLessonListPage.table getLearnersForLesson getLessonStatusTally
          getGroupNames compareAscending lessons filterValue)
     = map (ReportsLessonListPage.tableRow getLearnersForLesson
              getLessonStatusTally getGroupNames)
         (List.filter (Lodash.hasCriteria get ["title"; "active"] k)
            (ReportsLessonListPage.filtered lessons filterValue))) /\
  (forall node_ids contentNodeMap recipients getContentStatusTally
          getContentAvgTimeSpent k,
     List.filter
       (Lodash.hasCriteria ReportsLessonReportPage.contentProperty ["title"] k)
       (ReportsLessonReportPage.sorted node_ids contentNodeMap compareAscending)
     = List.filter
         (Lodash.hasCriteria ReportsLessonReportPage.contentProperty ["title"] k)
         (ReportsLessonReportPage.contentArray node_ids contentNodeMap) /\
     forall rows,
       ReportsLessonReportPage.table node_ids contentNodeMap recipients
         getContentStatusTally getContentAvgTimeSpent compareAscending = Some rows ->
       mapM (ReportsLessonReportPage.tableRow recipients getContentStatusTally
               getContentAvgTimeSpent)
         (List.filter
            (Lodash.hasCriteria ReportsLessonReportPage.contentProperty ["title"] k)
            (ReportsLessonReportPage.contentArray node_ids contentNodeMap))
       = Some (List.filter (Lodash.hasCriteria get ["title"] k) rows)) /\
  (forall (A : Type) (property : string -> A -> value) (collection : list A)
          iteratees k (out : list (@Lodash.Decorated A)),
     isSortOf (Lodash.compareMultiple compareAscending)
       (Lodash.decorateFrom property 0 iteratees collection) out ->
     List.filter (Lodash.hasCriteria property iteratees k) (map Lodash.dvalue out)
     = List.filter (Lodash.hasCriteria property iteratees k) collection).
Proof.
  intros Hsame. split; [| split];
    [| | intros A property collection iteratees k out;
         apply sortBy_stable_any_engine; exact Hsame].
  - intros gL gT gG lessons filterValue k.
    assert (Hs : List.filter (Lodash.hasCriteria get ["title"; "active"] k)
                   (ReportsLessonListPage.sorted compareAscending lessons filterValue)
                 = List.filter (Lodash.hasCriteria get ["title"; "active"] k)
                     (ReportsLessonListPage.filtered lessons filterValue)).
    { unfold ReportsLessonListPage.sorted. apply sortBy_stable. exact Hsame. }
    split; [exact Hs |].
    unfold ReportsLessonListPage.table. rewrite filter_map_comm.
    rewrite <- Hs. f_equal. apply filter_ext_Forall, Forall_forall.
    intros lesson _. unfold Lodash.hasCriteria.
    rewrite lesson_tableRow_criteria. reflexivity.
  - intros node_ids cmap recipients gT gA k.
    assert (Hs : List.filter
                   (Lodash.hasCriteria ReportsLessonReportPage.contentProperty ["title"] k)
                   (ReportsLessonReportPage.sorted node_ids cmap compareAscending)
                 = List.filter
                     (Lodash.hasCriteria ReportsLessonReportPage.contentProperty ["title"] k)
                     (ReportsLessonReportPage.contentArray node_ids cmap)).
    { unfold ReportsLessonReportPage.sorted. apply sortBy_stable. exact Hsame. }
    split; [exact Hs |].
    intros rows Hrows. rewrite <- Hs. apply mapM_Some.
    apply table_Some_rows in Hrows.
    apply Forall2_filter_related.
    eapply Forall2_impl; [| exact Hrows]. simpl.
    intros content row (c & -> & ->). split; [reflexivity |].
    unfold Lodash.hasCriteria, Lodash.criteriaOf; simpl. unfold get.
    rewrite content_row_underived by discriminate. reflexivity.
Qed.

Lemma sort_step_is_stable_witness :
  map (get "id")
    (List.filter
       (Lodash.hasCriteria get ["title"; "active"] [VStr "Fractions"; VBool true])
       (ReportsLessonListPage.table Samples.getLearnersForLesson
          Samples.getLessonStatusTally Samples.getGroupNames
          Samples.compareAscendingPrimitive Samples.lessons (VStr "allLessons")))
  = [VStr "l1"; VStr "l3"].
Proof.
  destruct (sort_step_is_stable Samples.compareAscendingPrimitive
              compareAscendingPrimitive_same) as (Hlist & _ & _).
  destruct (Hlist Samples.getLearnersForLesson Samples.getLessonStatusTally
              Samples.getGroupNames Samples.lessons (VStr "allLessons")
              [VStr "Fractions"; VBool true]) as [_ Hrows].
  rewrite Hrows. reflexivity.
Defined.

(** On the sample lessons the model's arrangement is within the contract. *)
Example sample_sort_within_contract :
  let decorated := Lodash.decorateFrom get 0 ["title"; "active"] Samples.lessons in
  isSortOf (Lodash.compareMultiple Samples.compareAscendingPrimitive) decorated
    (Array_sort (Lodash.compareMultiple Samples.compareAscendingPrimitive) decorated).
Proof.
  split; [apply Array_sort_Permutation |].
  unfold sortedBy. repeat constructor; vm_compute; discriminate.
Qed.

Example table_sample_order :
  map (get "id")
    (ReportsLessonListPage.table Samples.getLearnersForLesson
       Samples.getLessonStatusTally Samples.getGroupNames
       Samples.compareAscendingPrimitive Samples.lessons (VStr "allLessons"))
  = [VStr "l2"; VStr "l1"; VStr "l3"].
Proof. reflexivity. Qed.

Example report_sample_order :
  option_map (map (get "node_id"))
    (ReportsLessonReportPage.table Samples.node_ids Samples.contentNodeMap
       Samples.recipients Samples.getContentStatusTally
       Samples.getContentAvgTimeSpent Samples.compareAscendingPrimitive)
  = Some [VStr "n2"; VStr "n1"; VStr "n3"].
Proof. reflexivity. Qed.

End SortStepTheorems.

(** ** The tally and the average time *)

Section TallyFacts.
Import Coach.

Context (records : Records) (itemId : string).

Lemma countStatus_cons s recipient recipients :
  countStatus records itemId s (recipient :: recipients)
  = ((if bool_decide (statusFor records itemId recipient = s) then 1 else 0)
     + countStatus records itemId s recipients)%nat.
Proof.
  unfold countStatus; simpl.
  destruct (bool_decide (statusFor records itemId recipient = s)); reflexivity.
Qed.

(** The walk over the recipients adds, to each bucket of the tally it starts
    from, the number of recipients with that status. *)
Lemma foldl_increment (start : Tally) recipients :
  let t := foldl (fun t recipient => increment (statusFor records itemId recipient) t)
             start recipients in
  notStarted t = (notStarted start + countStatus records itemId NotStarted recipients)%nat /\
  inProgress t = (inProgress start + countStatus records itemId InProgress recipients)%nat /\
  completed t = (completed start + countStatus records itemId Completed recipients)%nat /\
  needsHelp t = (needsHelp start + countStatus records itemId NeedsHelp recipients)%nat.
Proof.
  revert start. induction recipients as [| r rs IH]; intros start.
  - unfold countStatus; simpl. repeat split; lia.
  - cbn [foldl]. cbv zeta in IH |- *.
    destruct (IH (increment (statusFor records itemId r) start)) as (H1 & H2 & H3 & H4).
    rewrite H1, H2, H3, H4, !countStatus_cons.
    destruct (statusFor records itemId r); simpl; repeat split; lia.
Qed.

Lemma countStatus_total recipients :
  (countStatus records itemId NotStarted recipients
   + countStatus records itemId InProgress recipients
   + countStatus records itemId Completed recipients
   + countStatus records itemId NeedsHelp recipients
   = length recipients)%nat.
Proof.
  induction recipients as [| r rs IH]; [reflexivity |].
  rewrite !countStatus_cons. simpl length.
  destruct (statusFor records itemId r); simpl; lia.
Qed.

End TallyFacts.

Section TallyTheorems.
Import Coach.

(** C4: the four counts of [computeTally] are the numbers of recipients per
    status, a recipient without a record counting as not-started; they are
    non-negative, sum to the number of recipients, and none exceeds it. *)
Theorem computeTally_counts (records : Records) (itemId : string)
    (recipients : list string) :
  let t := computeTally records itemId recipients in
  (notStarted t + inProgress t + completed t + needsHelp t
   = length recipients)%nat /\
  Forall (fun count => 0 <= Z.of_nat count <= Z.of_nat (length recipients))
    (tallyValues t) /\
  notStarted t = countStatus records itemId NotStarted recipients /\
  inProgress t = countStatus records itemId InProgress recipients /\
  completed t = countStatus records itemId Completed recipients /\
  needsHelp t = countStatus records itemId NeedsHelp recipients /\
  (forall recipient, records !! (recipient, itemId) = None ->
                     statusFor records itemId recipient = NotStarted).
Proof.
  intros t.
  destruct (foldl_increment records itemId emptyTally recipients)
    as (H1 & H2 & H3 & H4).
  fold (computeTally records itemId recipients) in H1, H2, H3, H4.
  fold t in H1, H2, H3, H4. simpl in H1, H2, H3, H4.
  pose proof (countStatus_total records itemId recipients) as Htotal.
  split; [lia |]. split.
  - unfold tallyValues. repeat constructor; lia.
  - repeat split; try assumption.
    intros recipient Hnone. unfold statusFor. rewrite Hnone. reflexivity.
Qed.

Example computeTally_scenario :
  computeTally Samples.records "c1" Samples.learnerIds
  = {| notStarted := 3; inProgress := 3; completed := 4; needsHelp := 0 |}.
Proof. vm_compute. reflexivity. Qed.

End TallyTheorems.

Section AverageTimeTheorems.
Import Coach.

Lemma omap_definedTime_nil (records : Records) itemId recipients :
  Forall (fun recipient => definedTime records itemId recipient = None) recipients ->
  omap (definedTime records itemId) recipients = [].
Proof.
  induction 1 as [| r rs Hr _ IH]; simpl; [reflexivity |].
  rewrite Hr. exact IH.
Qed.

Lemma divide_is_Some numerator denominator :
  denominator <> 0 -> is_Some (divide numerator denominator).
Proof.
  intros H. unfold divide. apply Z.eqb_neq in H. rewrite H. eauto.
Qed.

(** With one defined time or more, the result is their sum over their
    number. *)
Lemma computeAverageTime_mean (records : Records) itemId (recipients : list string) :
  let times := omap (definedTime records itemId) recipients in
  times <> [] ->
  computeAverageTime records itemId recipients
  = Some (Qc_of_Z (foldr Z.add 0%Z times) / Qc_of_Z (Z.of_nat (length times)))%Qc.
Proof.
  intros times Hne. unfold computeAverageTime. fold times.
  destruct times as [| t ts]; [congruence |].
  unfold divide. reflexivity.
Qed.

(** C6: when no recipient has a defined time-spent value for the item (so
    also for no recipient at all), [computeAverageTime] returns 0; and
    whatever the recipients, the division is never reached with a zero
    denominator: the computation always yields a number. *)
Theorem computeAverageTime_zero_without_times (records : Records)
    (itemId : string) :
  (forall recipients,
     Forall (fun recipient => definedTime records itemId recipient = None)
       recipients ->
     computeAverageTime records itemId recipients = Some 0%Qc) /\
  computeAverageTime records itemId [] = Some 0%Qc /\
  (forall recipients, is_Some (computeAverageTime records itemId recipients)) /\
  (forall numerator, divide numerator 0 = None).
Proof.
  split; [| split; [| split]].
  - intros recipients Hnone. unfold computeAverageTime.
    rewrite omap_definedTime_nil by exact Hnone. reflexivity.
  - reflexivity.
  - intros recipients. unfold computeAverageTime.
    destruct (Z.eqb_spec
                (Z.of_nat (length (omap (definedTime records itemId) recipients))) 0)
      as [Hz | Hnz].
    + eauto.
    + apply divide_is_Some. exact Hnz.
  - reflexivity.
Qed.

Lemma computeAverageTime_zero_without_times_witness :
  computeAverageTime Samples.records "c1" ["u3"; "u6"; "u8"; "u10"] = Some 0%Qc.
Proof.
  apply (proj1 (computeAverageTime_zero_without_times Samples.records "c1")).
  repeat constructor.
Defined.

Example computeAverageTime_scenario :
  computeAverageTime Samples.records "c1" Samples.learnerIds
  = Some (Qc_of_Z 63).
Proof.
  rewrite computeAverageTime_mean by (vm_compute; discriminate).
  apply f_equal, Qc_is_canon. vm_compute. reflexivity.
Qed.

End AverageTimeTheorems.

(** ** SelectedResourcesSize: admission *)

Section AdmissionTheorems.
Import SelectedResourcesSize.

Lemma remaining_nonneg this : 0 <= remainingSpaceAfterTransfer this.
Proof. unfold remainingSpaceAfterTransfer. lia. Qed.

Lemma remaining_positive_iff this :
  0 < remainingSpaceAfterTransfer this <-> 0 < spaceOnDrive this - fileSize this.
Proof. unfold remainingSpaceAfterTransfer. lia. Qed.

(** The alert and the space half of the button's test are one condition. *)
Lemma notEnoughSpaceShown_iff this :
  notEnoughSpaceShown this = true <-> spaceOnDrive this - fileSize this <= 0.
Proof.
  unfold notEnoughSpaceShown, remainingSpaceAfterTransfer.
  rewrite Z.leb_le. lia.
Qed.

Example remaining_1000_1000 :
  remainingSpaceAfterTransfer
    {| fileSize := 1000; resourceCount := 3; spaceOnDrive := 1000 |} = 0 /\
  admitted {| fileSize := 1000; resourceCount := 3; spaceOnDrive := 1000 |} = false.
Proof. split; reflexivity. Qed.

Example admitted_1000_2000 :
  admitted {| fileSize := 1000; resourceCount := 3; spaceOnDrive := 2000 |} = true.
Proof. reflexivity. Qed.

(** C1: for sizes [size], [space] and a selection count [n] (a count, so
    [0 <= n]), the confirm button is enabled iff [space - size > 0] and
    [n > 0]; it is disabled otherwise, in particular when [space = size]. *)
Theorem admission_iff (size space n : Z) :
  0 <= n ->
  let this := {| fileSize := size; resourceCount := n; spaceOnDrive := space |} in
  (admitted this = true <-> space - size > 0 /\ n > 0) /\
  (buttonIsDisabled this = true <-> ~ (space - size > 0 /\ n > 0)) /\
  (space = size -> admitted this = false).
Proof.
  intros Hn this.
  unfold admitted, buttonIsDisabled, remainingSpaceAfterTransfer; simpl.
  destruct (Z.eqb_spec n 0) as [-> | Hne]; simpl.
  - repeat split; try lia; intros; try reflexivity; try discriminate.
  - destruct (Z.leb_spec (Z.max (space - size) 0) 0) as [Hle | Hgt]; simpl.
    + repeat split; try lia; intros; try reflexivity; try discriminate.
    + repeat split; try lia; intros; try reflexivity; try discriminate.
Qed.

Lemma admission_iff_witness :
  let this := {| fileSize := 1000; resourceCount := 2; spaceOnDrive := 1000 |} in
  (admitted this = true <-> 1000 - 1000 > 0 /\ 2 > 0) /\
  (buttonIsDisabled this = true <-> ~ (1000 - 1000 > 0 /\ 2 > 0)) /\
  (1000 = 1000 -> admitted this = false).
Proof. apply (admission_iff 1000 1000 2). lia. Defined.

(** C5: the remaining space is [max (availableSpace - candidateSize) 0],
    hence never negative; with 1000 available and a candidate of 1200 it
    is 0, where the plain difference is -200. *)
Theorem remaining_is_clamped :
  (forall size space n,
     let this := {| fileSize := size; resourceCount := n; spaceOnDrive := space |} in
     remainingSpaceAfterTransfer this = Z.max (space - size) 0 /\
     0 <= remainingSpaceAfterTransfer this) /\
  (forall n,
     remainingSpaceAfterTransfer
       {| fileSize := 1200; resourceCount := n; spaceOnDrive := 1000 |} = 0 /\
     1000 - 1200 = -200).
Proof.
  split.
  - intros size space n this. unfold remainingSpaceAfterTransfer; simpl. lia.
  - intros n. split; reflexivity.
Qed.

End AdmissionTheorems.

(** * Part III: further properties of the components *)

(** ** SelectedResourcesSize: the alert, the button and the mode *)

Section AdmissionFurther.
Import SelectedResourcesSize.

(** X1: the "not enough space" alert is shown exactly when the drive space
    does not exceed the file size; whenever it is shown the confirm button
    is disabled; and the button is disabled without the alert exactly when
    nothing is selected although the selection would fit. *)
Theorem alert_disables_button (this : Props) :
  (notEnoughSpaceShown this = true <-> spaceOnDrive this <= fileSize this) /\
  (notEnoughSpaceShown this = true -> buttonIsDisabled this = true) /\
  (buttonIsDisabled this = true /\ notEnoughSpaceShown this = false
   <-> resourceCount this = 0 /\ fileSize this < spaceOnDrive this).
Proof.
  unfold notEnoughSpaceShown, buttonIsDisabled, remainingSpaceAfterTransfer.
  destruct (Z.leb_spec (Z.max (spaceOnDrive this - fileSize this) 0) 0) as [H | H];
    destruct (Z.eqb_spec (resourceCount this) 0) as [H0 | H0]; simpl;
    repeat split; intros; try lia; try reflexivity; try discriminate;
    try (destruct H1; try discriminate; lia).
Qed.

(** X2: over all integers, the confirm button is enabled exactly when the
    resource count is not 0 (the test is [=== 0], so a negative count
    passes it) and the file size is less than the drive space. *)
Theorem button_enabled_iff (this : Props) :
  buttonIsDisabled this = false
  <-> resourceCount this <> 0 /\ fileSize this < spaceOnDrive this.
Proof.
  unfold buttonIsDisabled, remainingSpaceAfterTransfer.
  rewrite Bool.orb_false_iff, Z.eqb_neq, Z.leb_gt. lia.
Qed.

(** X3: admission is monotone: a transfer that is admitted stays admitted
    when the file size shrinks or the drive space grows, the selection
    being the same; and the remaining space does not shrink. *)
Theorem admission_monotone (this that : Props) :
  resourceCount that = resourceCount this ->
  fileSize that <= fileSize this ->
  spaceOnDrive this <= spaceOnDrive that ->
  remainingSpaceAfterTransfer this <= remainingSpaceAfterTransfer that /\
  (admitted this = true -> admitted that = true).
Proof.
  intros Hn Hs Hd. split.
  - unfold remainingSpaceAfterTransfer. lia.
  - unfold admitted, buttonIsDisabled, remainingSpaceAfterTransfer.
    rewrite !Bool.negb_true_iff, !Bool.orb_false_iff, !Z.eqb_neq, !Z.leb_gt. lia.
Qed.

Lemma admission_monotone_witness :
  let this := {| fileSize := 800; resourceCount := 4; spaceOnDrive := 1000 |} in
  let that := {| fileSize := 500; resourceCount := 4; spaceOnDrive := 1200 |} in
  remainingSpaceAfterTransfer this <= remainingSpaceAfterTransfer that /\
  (admitted this = true -> admitted that = true).
Proof.
  apply (admission_monotone
           {| fileSize := 800; resourceCount := 4; spaceOnDrive := 1000 |}
           {| fileSize := 500; resourceCount := 4; spaceOnDrive := 1200 |});
    simpl; [reflexivity | lia | lia].
Defined.

(** X4: the space is accounted for.  For a file size and a drive space
    that are safe integers and not negative (sizes in bytes up to 2^53 - 1,
    where the subtraction and the addition of the language are exact), the
    difference and the remaining space are safe integers again; when the
    files fit, the remaining space and the file size add up to the drive
    space; when they do not, the remaining space is 0; and the remaining
    space never exceeds the drive space. *)
Theorem remaining_accounts_for_space (this : Props) :
  0 <= fileSize this -> Language.isSafeInteger (fileSize this) ->
  0 <= spaceOnDrive this -> Language.isSafeInteger (spaceOnDrive this) ->
  Language.isSafeInteger (spaceOnDrive this - fileSize this) /\
  Language.isSafeInteger (remainingSpaceAfterTransfer this) /\
  Language.isSafeInteger (remainingSpaceAfterTransfer this + fileSize this) /\
  (fileSize this <= spaceOnDrive this ->
   remainingSpaceAfterTransfer this + fileSize this = spaceOnDrive this) /\
  (spaceOnDrive this <= fileSize this -> remainingSpaceAfterTransfer this = 0) /\
  remainingSpaceAfterTransfer this <= spaceOnDrive this.
Proof.
  unfold Language.isSafeInteger, Language.MAX_SAFE_INTEGER,
    remainingSpaceAfterTransfer.
  intros Hf [_ Hfs] Hd [_ Hds]. repeat split; lia.
Qed.

Lemma remaining_accounts_for_space_witness :
  let this := {| fileSize := 800; resourceCount := 4; spaceOnDrive := 1000 |} in
  remainingSpaceAfterTransfer this + fileSize this = spaceOnDrive this.
Proof.
  intros this.
  refine (proj1 (proj2 (proj2 (proj2
            (remaining_accounts_for_space this _ _ _ _)))) _);
    unfold Language.isSafeInteger, Language.MAX_SAFE_INTEGER; simpl; lia.
Defined.

End AdmissionFurther.

Section ModeFurther.
Import SelectedResourcesSizeMode.

(** X5: with the messages of [$trs], a mode that the validator accepts is
    itself the text of the confirm button, and the heading names the same
    direction; every other mode string, which the validator rejects, is
    shown as an export. *)
Theorem buttonText_follows_mode (mode : string) :
  (validator mode = true -> buttonText mode = mode) /\
  (validator mode = true <-> mode = "import" \/ mode = "export") /\
  (mode = "import" ->
   buttonText mode = "import" /\ chooseMessage mode = "Choose content to import") /\
  (mode <> "import" ->
   buttonText mode = "export" /\ chooseMessage mode = "Choose content to export").
Proof.
  unfold validator, buttonText, chooseMessage, isInImportMode.
  rewrite Bool.orb_true_iff, !String.eqb_eq.
  destruct (String.eqb_spec mode "import") as [-> | Hne].
  - repeat split; intros; try reflexivity; try congruence; auto.
  - repeat split; intros; try reflexivity; try congruence; auto.
    destruct H; [congruence |]. subst. reflexivity.
Qed.

End ModeFurther.

(** ** ReportsLessonListPage: more on the filter step and the rows *)

Section ListFacts.

Lemma filter_negb_Permutation {B : Type} (P : B -> bool) (l : list B) :
  Permutation (List.filter P l ++ List.filter (fun b => negb (P b)) l) l.
Proof.
  induction l as [| b l IH]; simpl; [reflexivity |].
  destruct (P b); simpl.
  - apply perm_skip, IH.
  - etransitivity; [symmetry; apply Permutation_middle |]. apply perm_skip, IH.
Qed.

Lemma filter_idempotent {B : Type} (P : B -> bool) (l : list B) :
  List.filter P (List.filter P l) = List.filter P l.
Proof.
  induction l as [| b l IH]; simpl; [reflexivity |].
  destruct (P b) eqn:Pb; simpl; [rewrite Pb, IH |]; auto.
Qed.

Lemma filter_disjoint {B : Type} (P Q : B -> bool) (l : list B) :
  (forall b, P b = true -> Q b = false) ->
  List.filter Q (List.filter P l) = [].
Proof.
  intros H. induction l as [| b l IH]; simpl; [reflexivity |].
  destruct (P b) eqn:Pb; simpl; [rewrite (H b Pb) |]; exact IH.
Qed.

Lemma filter_length_le {B : Type} (P : B -> bool) (l : list B) :
  (length (List.filter P l) <= length l)%nat.
Proof.
  induction l as [| b l IH]; simpl; [lia |]. destruct (P b); simpl; lia.
Qed.

Lemma NoDup_map_filter {B C : Type} (f : B -> C) (P : B -> bool) (l : list B) :
  NoDup (map f l) -> NoDup (map f (List.filter P l)).
Proof.
  induction l as [| b l IH]; simpl; intros H; [exact H |].
  apply list.NoDup_cons in H as [Hin H].
  destruct (P b); simpl; [| auto].
  apply list.NoDup_cons. split; [| auto].
  intros Hb. apply Hin. apply list_elem_of_In. apply list_elem_of_In in Hb.
  apply in_map_iff in Hb as (x & Hx & Hxin).
  apply filter_In in Hxin as [Hxin _]. apply in_map_iff. eauto.
Qed.

End ListFacts.

Section LessonListFurther.
Import JS ReportsLessonListPage.

Context (getLearnersForLesson : obj -> list value).
Context (getLessonStatusTally : value -> list value -> value).
Context (getGroupNames : value -> value).
Context (compareAscending : value -> value -> Z).

#[local] Abbreviation tableRow :=
  (ReportsLessonListPage.tableRow getLearnersForLesson getLessonStatusTally
     getGroupNames).
#[local] Abbreviation table :=
  (ReportsLessonListPage.table getLearnersForLesson getLessonStatusTally
     getGroupNames compareAscending).

Lemma table_Permutation (lessons : list obj) (filterValue : value) :
  Permutation (table lessons filterValue)
    (map tableRow (filtered lessons filterValue)).
Proof.
  unfold ReportsLessonListPage.table, sorted.
  apply Permutation_map, sortBy_Permutation.
Qed.

Lemma table_allLessons_Permutation (lessons : list obj) :
  Permutation (table lessons (VStr "allLessons")) (map tableRow lessons).
Proof. rewrite table_Permutation, filtered_all. reflexivity. Qed.

(** X6: whatever the lessons hold in [active], the filters
    ['activeLessons'] and ['inactiveLessons'] split the lessons in two:
    every lesson passes exactly one of them, and the two outputs together
    are the lessons again. *)
Theorem active_inactive_partition (lessons : list obj) :
  Permutation
    (filtered lessons (VStr "activeLessons")
     ++ filtered lessons (VStr "inactiveLessons")) lessons /\
  (length (filtered lessons (VStr "activeLessons"))
   + length (filtered lessons (VStr "inactiveLessons")) = length lessons)%nat /\
  (forall lesson, In lesson lessons ->
     (In lesson (filtered lessons (VStr "activeLessons"))
      <-> ~ In lesson (filtered lessons (VStr "inactiveLessons")))).
Proof.
  rewrite filtered_active_truthy, filtered_inactive_falsy.
  pose proof (filter_negb_Permutation
                (fun l : obj => ToBoolean (get "active" l)) lessons) as Hp.
  split; [exact Hp |]. split.
  - rewrite <- length_app. apply Permutation_length, Hp.
  - intros lesson Hin. rewrite !filter_In.
    destruct (ToBoolean (get "active" lesson)); simpl; intuition discriminate.
Qed.

(** X7: the sort loses no row and adds none: the table holds exactly the
    rows of the lessons that pass the filter, in some order; with
    ['allLessons'] those are all the lessons; no lessons give no rows. *)
Theorem table_rows_are_filtered_lessons (lessons : list obj) (filterValue : value) :
  Permutation (table lessons filterValue)
    (map tableRow (filtered lessons filterValue)) /\
  (length (table lessons filterValue) <= length lessons)%nat /\
  Permutation (table lessons (VStr "allLessons")) (map tableRow lessons) /\
  length (table lessons (VStr "allLessons")) = length lessons /\
  table [] filterValue = [].
Proof.
  split; [apply table_Permutation |]. split; [| split; [| split]].
  - rewrite (Permutation_length (table_Permutation lessons filterValue)), length_map.
    apply filter_length_le.
  - apply table_allLessons_Permutation.
  - rewrite (Permutation_length (table_allLessons_Permutation lessons)), length_map.
    reflexivity.
  - reflexivity.
Qed.

Lemma table_ids (lessons : list obj) (filterValue : value) :
  map (get "id") (table lessons filterValue)
  = map (get "id") (sorted compareAscending lessons filterValue).
Proof.
  unfold ReportsLessonListPage.table. rewrite map_map. apply map_ext.
  intros lesson. unfold get.
  rewrite lesson_tableRow_underived by discriminate. reflexivity.
Qed.

(** X8: the rows are keyed by [tableRow.id], and the ids are those of the
    lessons: when no two lessons share an [id], no two rows do, and every
    row's [id] is the [id] of a lesson. *)
Theorem table_ids_unique (lessons : list obj) (filterValue : value) :
  NoDup (map (get "id") lessons) ->
  NoDup (map (get "id") (table lessons filterValue)) /\
  incl (map (get "id") (table lessons filterValue)) (map (get "id") lessons).
Proof.
  intros Hnd. rewrite table_ids.
  assert (Hp : Permutation (map (get "id") (sorted compareAscending lessons filterValue))
                 (map (get "id") (filtered lessons filterValue))).
  { apply Permutation_map. unfold sorted. apply sortBy_Permutation. }
  split.
  - rewrite Hp. unfold filtered, Array_filter. apply NoDup_map_filter, Hnd.
  - intros id Hid. eapply Permutation_in in Hid; [| exact Hp].
    apply in_map_iff in Hid as (lesson & <- & Hin).
    unfold filtered, Array_filter in Hin. apply filter_In in Hin as [Hin _].
    apply in_map. exact Hin.
Qed.

End LessonListFurther.

Lemma table_ids_unique_witness :
  NoDup (map (JS.get "id")
           (ReportsLessonListPage.table Samples.getLearnersForLesson
              Samples.getLessonStatusTally Samples.getGroupNames
              Samples.compareAscendingPrimitive Samples.lessons
              (JS.VStr "activeLessons"))).
Proof.
  apply (table_ids_unique Samples.getLearnersForLesson
           Samples.getLessonStatusTally Samples.getGroupNames
           Samples.compareAscendingPrimitive Samples.lessons
           (JS.VStr "activeLessons")).
  by_computation.
Defined.

Section FilterStepFurther.
Import JS ReportsLessonListPage.

(** X9: the filter step is idempotent, and the two flag filters exclude
    each other: filtering an output again with the same filter value
    changes nothing, and filtering the output of ['activeLessons'] with
    ['inactiveLessons'], or the other way round, leaves nothing. *)
Theorem filter_step_idempotent (lessons : list obj) (filterValue : value) :
  filtered (filtered lessons filterValue) filterValue = filtered lessons filterValue /\
  filtered (filtered lessons (VStr "activeLessons")) (VStr "inactiveLessons") = [] /\
  filtered (filtered lessons (VStr "inactiveLessons")) (VStr "activeLessons") = [] /\
  filtered (filtered lessons filterValue) (VStr "allLessons")
  = filtered lessons filterValue.
Proof.
  split; [| split; [| split]].
  - unfold filtered, Array_filter. apply filter_idempotent.
  - rewrite filtered_inactive_falsy, filtered_active_truthy.
    apply filter_disjoint. intros b ->. reflexivity.
  - rewrite filtered_active_truthy, filtered_inactive_falsy.
    apply filter_disjoint. intros b Hb. apply Bool.negb_true_iff. exact Hb.
  - apply filtered_all.
Qed.

End FilterStepFurther.

(** ** The fields of a row *)

Section RowFrame.
Import JS.

(** X10: a row has the fields of its item and the derived fields, and no
    other: in the lesson list [totalLearners], [tally], [groupNames] and
    [hasAssignments] are added to the lesson's fields, in the lesson report
    [avgTimeSpent], [tally] and [hasAssignments] to the content's. *)
Theorem row_fields_are_item_and_derived :
  (forall getLearnersForLesson getLessonStatusTally getGroupNames
          compareAscending lessons filterValue,
     Forall2
       (fun lesson row : obj =>
          dom row = dom lesson ∪ ({["totalLearners"; "tally"; "groupNames";
                                   "hasAssignments"]} : gset string))
       (ReportsLessonListPage.sorted compareAscending lessons filterValue)
       (ReportsLessonListPage.table getLearnersForLesson getLessonStatusTally
          getGroupNames compareAscending lessons filterValue)) /\
  (forall node_ids contentNodeMap recipients getContentStatusTally
          getContentAvgTimeSpent compareAscending rows,
     ReportsLessonReportPage.table node_ids contentNodeMap recipients
       getContentStatusTally getContentAvgTimeSpent compareAscending = Some rows ->
     Forall2
       (fun (content : option obj) (row : obj) =>
          exists c, content = Some c /\
          dom row = dom c ∪ ({["avgTimeSpent"; "tally"; "hasAssignments"]}
                             : gset string))
       (ReportsLessonReportPage.sorted node_ids contentNodeMap compareAscending)
       rows).
Proof.
  split.
  - intros gL gT gG cmp lessons filterValue.
    unfold ReportsLessonListPage.table. apply Forall2_map_r_same.
    intros lesson.
    unfold ReportsLessonListPage.tableRow, Object_assign,
      ReportsLessonListPage.derivedFields.
    rewrite dom_union_L, !dom_insert_L, dom_empty_L. set_solver.
  - intros node_ids cmap recipients gT gA cmp rows Hrows.
    apply table_Some_rows in Hrows.
    eapply Forall2_impl; [| exact Hrows]. simpl.
    intros content row (c & -> & ->). exists c. split; [reflexivity |].
    unfold Object_assign, ReportsLessonReportPage.derivedFields.
    rewrite dom_union_L, !dom_insert_L, dom_empty_L. set_solver.
Qed.

Lemma row_fields_are_item_and_derived_witness :
  exists rows,
    ReportsLessonReportPage.table Samples.node_ids Samples.contentNodeMap
      Samples.recipients Samples.getContentStatusTally
      Samples.getContentAvgTimeSpent Samples.compareAscendingPrimitive
    = Some rows /\
    Forall2
      (fun (content : option obj) (row : obj) =>
         exists c, content = Some c /\
         dom row = dom c ∪ ({["avgTimeSpent"; "tally"; "hasAssignments"]}
                            : gset string))
      (ReportsLessonReportPage.sorted Samples.node_ids Samples.contentNodeMap
         Samples.compareAscendingPrimitive)
      rows.
Proof.
  destruct sample_report_is_Some as [rows E].
  exists rows. split; [exact E |].
  exact (proj2 row_fields_are_item_and_derived _ _ _ _ _ _ _ E).
Defined.

(** X11: in a lesson-list row built from a lesson that has no field named
    [totalLearners] or [hasAssignments], [totalLearners] is the number of
    learners of the lesson, and [hasAssignments] is [true] exactly when
    [totalLearners] is not 0 (and [false] otherwise). *)
Theorem totalLearners_and_hasAssignments_agree
    (getLearnersForLesson : obj -> list value)
    (getLessonStatusTally : value -> list value -> value)
    (getGroupNames : value -> value) (lesson : obj) :
  lesson !! "totalLearners" = None ->
  lesson !! "hasAssignments" = None ->
  let row := ReportsLessonListPage.tableRow getLearnersForLesson
               getLessonStatusTally getGroupNames lesson in
  get "totalLearners" row = VNum (Z.of_nat (length (getLearnersForLesson lesson))) /\
  (get "hasAssignments" row = VBool true <-> get "totalLearners" row <> VNum 0) /\
  (get "hasAssignments" row = VBool false <-> get "totalLearners" row = VNum 0).
Proof.
  intros Ht Hh row. unfold get. subst row.
  rewrite !lesson_tableRow_lookup, Ht, Hh.
  rewrite lesson_derivedFields_hasAssignments.
  assert (Hd : ReportsLessonListPage.derivedFields getLearnersForLesson
                 getLessonStatusTally getGroupNames lesson !! "totalLearners"
               = Some (VNum (Z.of_nat (length (getLearnersForLesson lesson)))))
    by reflexivity.
  rewrite Hd. cbn [default]. split; [reflexivity |].
  destruct (length (getLearnersForLesson lesson)) as [| n]; cbn.
  - split; split; intros H; try discriminate H; try reflexivity.
    exfalso. apply H. reflexivity.
  - split; split; intros H; try discriminate H; try reflexivity.
    intros H'. discriminate H'.
Qed.

Lemma totalLearners_and_hasAssignments_agree_witness :
  let row := ReportsLessonListPage.tableRow Samples.getLearnersForLesson
               Samples.getLessonStatusTally Samples.getGroupNames
               (Samples.lesson "l1" "Fractions" true) in
  get "totalLearners" row = VNum 2 /\
  (get "hasAssignments" row = VBool true <-> get "totalLearners" row <> VNum 0) /\
  (get "hasAssignments" row = VBool false <-> get "totalLearners" row = VNum 0).
Proof.
  apply (totalLearners_and_hasAssignments_agree Samples.getLearnersForLesson
           Samples.getLessonStatusTally Samples.getGroupNames
           (Samples.lesson "l1" "Fractions" true)); by_computation.
Defined.

End RowFrame.

(** ** ReportsLessonListPage: the filter of the component *)

Section PageFilterFurther.
Import JS ReportsLessonListPageFilter.

Context (coachString coreString : string -> string).
Context (getLearnersForLesson : obj -> list value).
Context (getLessonStatusTally : value -> list value -> value).
Context (getGroupNames : value -> value).
Context (compareAscending : value -> value -> Z).

#[local] Abbreviation pageTable :=
  (ReportsLessonListPageFilter.pageTable getLearnersForLesson
     getLessonStatusTally getGroupNames compareAscending).
#[local] Abbreviation tableRow :=
  (ReportsLessonListPage.tableRow getLearnersForLesson getLessonStatusTally
     getGroupNames).

(** X12: the three options of the select carry the three filter values the
    table knows, and each has its own empty message; for a filter whose
    [value] is anything else, the table is empty and the empty message is
    the empty string. *)
Theorem emptyMessage_follows_options :
  map (get "value") (filterOptions coreString)
  = [VStr "allLessons"; VStr "activeLessons"; VStr "inactiveLessons"] /\
  map (fun option => emptyMessage coachString (VObj option))
    (filterOptions coreString)
  = [Some (coachString "lessonListEmptyState");
     Some "No active lessons"; Some "No inactive lessons"] /\
  (forall filter v lessons,
     filterValue filter = Some v ->
     v <> VStr "allLessons" -> v <> VStr "activeLessons" ->
     v <> VStr "inactiveLessons" ->
     emptyMessage coachString filter = Some "" /\
     pageTable lessons filter = Some []).
Proof.
  split; [reflexivity |]. split; [reflexivity |].
  intros filter v lessons Hv H1 H2 H3. split.
  - unfold emptyMessage. rewrite Hv.
    apply strict_eq_str_false in H1, H2, H3. rewrite H1, H2, H3. reflexivity.
  - unfold ReportsLessonListPageFilter.pageTable.
    destruct lessons as [| lesson lessons]; [reflexivity |].
    rewrite Hv. f_equal. apply table_unrecognized; assumption.
Qed.

(** X13: with the [filter] that [data()] sets, the string ['allLessons'],
    [this.filter.value] is [undefined]: the table is empty whatever the
    lessons, and the empty message is the empty string.  With the [filter]
    that [beforeMount()] sets, the first option, the table holds one row
    for each lesson and the empty message is that of the lesson list. *)
Theorem filter_before_and_after_mount (lessons : list obj) :
  filterValue data_filter = Some VUndefined /\
  pageTable lessons data_filter = Some [] /\
  emptyMessage coachString data_filter = Some "" /\
  filterValue (beforeMount coreString) = Some (VStr "allLessons") /\
  (exists rows,
     pageTable lessons (beforeMount coreString) = Some rows /\
     Permutation rows (map tableRow lessons)) /\
  emptyMessage coachString (beforeMount coreString)
  = Some (coachString "lessonListEmptyState").
Proof.
  split; [reflexivity |]. split.
  { unfold ReportsLessonListPageFilter.pageTable.
    destruct lessons as [| lesson lessons']; [reflexivity |].
    cbn [filterValue data_filter]. f_equal.
    apply table_unrecognized; discriminate. }
  split; [reflexivity |]. split; [reflexivity |]. split; [| reflexivity].
  unfold ReportsLessonListPageFilter.pageTable.
  destruct lessons as [| lesson lessons'].
  - exists []. split; reflexivity.
  - eexists. split; [reflexivity |].
    change (get "value" (option_ (coreString "allLessonsLabel") "allLessons"))
      with (VStr "allLessons").
    apply table_allLessons_Permutation.
Qed.

End PageFilterFurther.

(** ** The order of the rows *)

Section ConsistentFacts.
Import Comparers.
Context {A : Type} (D : A -> Prop) (c : A -> A -> Z).
Hypothesis c_consistent : consistentOn D c.

Lemma consistentOn_zero_sym x y : D x -> D y -> c x y = 0 -> c y x = 0.
Proof.
  destruct c_consistent as [Hsym _]. intros Dx Dy H.
  pose proof (Hsym x y Dx Dy) as Hs.
  pose proof (Z.sgn_spec (c x y)). pose proof (Z.sgn_spec (c y x)). lia.
Qed.

Lemma consistentOn_pos_neg x y : D x -> D y -> 0 < c x y <-> c y x < 0.
Proof.
  destruct c_consistent as [Hsym _]. intros Dx Dy.
  pose proof (Hsym x y Dx Dy) as Hs.
  pose proof (Z.sgn_spec (c x y)). pose proof (Z.sgn_spec (c y x)). lia.
Qed.

Lemma consistentOn_lt_le x y z :
  D x -> D y -> D z -> c x y < 0 -> c y z <= 0 -> c x z < 0.
Proof.
  destruct c_consistent as [Hsym Htrans]. intros Dx Dy Dz Hxy Hyz.
  destruct (Z.lt_ge_cases (c x z) 0) as [H | H]; [exact H | exfalso].
  assert (Hzx : c z x <= 0).
  { pose proof (Hsym x z Dx Dz).
    pose proof (Z.sgn_spec (c x z)). pose proof (Z.sgn_spec (c z x)). lia. }
  pose proof (Htrans y z x Dy Dz Dx Hyz Hzx) as Hyx.
  pose proof (Hsym x y Dx Dy).
  pose proof (Z.sgn_spec (c x y)). pose proof (Z.sgn_spec (c y x)). lia.
Qed.

Lemma consistentOn_le_lt x y z :
  D x -> D y -> D z -> c x y <= 0 -> c y z < 0 -> c x z < 0.
Proof.
  destruct c_consistent as [Hsym Htrans]. intros Dx Dy Dz Hxy Hyz.
  destruct (Z.lt_ge_cases (c x z) 0) as [H | H]; [exact H | exfalso].
  assert (Hzx : c z x <= 0).
  { pose proof (Hsym x z Dx Dz).
    pose proof (Z.sgn_spec (c x z)). pose proof (Z.sgn_spec (c z x)). lia. }
  pose proof (Htrans z x y Dz Dx Dy Hzx Hxy) as Hzy.
  pose proof (Hsym y z Dy Dz).
  pose proof (Z.sgn_spec (c y z)). pose proof (Z.sgn_spec (c z y)). lia.
Qed.

Lemma consistentOn_zero_trans x y z :
  D x -> D y -> D z -> c x y = 0 -> c y z = 0 -> c x z = 0.
Proof.
  destruct c_consistent as [Hsym Htrans]. intros Dx Dy Dz Hxy Hyz.
  assert (H1 : c x z <= 0) by (apply (Htrans x y z); auto; lia).
  assert (H2 : c z x <= 0).
  { apply (Htrans z y x); auto.
    - rewrite (consistentOn_zero_sym y z); auto; lia.
    - rewrite (consistentOn_zero_sym x y); auto; lia. }
  pose proof (Hsym x z Dx Dz).
  pose proof (Z.sgn_spec (c x z)). pose proof (Z.sgn_spec (c z x)). lia.
Qed.

Lemma consistentOn_subdomain (D' : A -> Prop) :
  (forall x, D' x -> D x) -> consistentOn D' c.
Proof.
  destruct c_consistent as [Hsym Htrans]. intros Hsub. split.
  - intros x y Dx Dy. apply Hsym; auto.
  - intros x y z Dx Dy Dz. apply Htrans; auto.
Qed.

End ConsistentFacts.

Section SortByOrder.
Import JS Lodash Comparers.
Context {A : Type} (property : string -> A -> value).
Context (compareAscending : value -> value -> Z).
Context (D : A -> Prop).

(** The comparison of two elements by all their criteria is consistent when
    the comparison by each single criterion is. *)
Lemma compareCriteria_consistentOn (its : list string) :
  (forall name, In name its ->
     consistentOn D (fun x y => compareAscending (property name x) (property name y))) ->
  consistentOn D
    (fun x y => compareCriteria compareAscending
                  (criteriaOf property its x) (criteriaOf property its y)).
Proof.
  induction its as [| n ns IH]; intros Hits.
  - split; simpl; intros; lia.
  - assert (Hn : consistentOn D
                   (fun x y => compareAscending (property n x) (property n y)))
      by (apply Hits; left; reflexivity).
    assert (Hns : consistentOn D
                    (fun x y => compareCriteria compareAscending
                                  (criteriaOf property ns x) (criteriaOf property ns y)))
      by (apply IH; intros name Hname; apply Hits; right; exact Hname).
    split.
    + intros x y Dx Dy. simpl.
      destruct (Z.eqb_spec (compareAscending (property n x) (property n y)) 0) as [E | E].
      * rewrite (consistentOn_zero_sym D _ Hn x y Dx Dy E). simpl.
        apply (proj1 Hns); assumption.
      * destruct (Z.eqb_spec (compareAscending (property n y) (property n x)) 0)
          as [E' | E'].
        -- exfalso. apply E. apply (consistentOn_zero_sym D _ Hn y x Dy Dx E').
        -- apply (proj1 Hn); assumption.
    + intros x y z Dx Dy Dz. simpl.
      destruct (Z.eqb_spec (compareAscending (property n x) (property n y)) 0) as [Exy | Exy];
        destruct (Z.eqb_spec (compareAscending (property n y) (property n z)) 0) as [Eyz | Eyz];
        intros Hxy Hyz.
      * rewrite (consistentOn_zero_trans D _ Hn x y z Dx Dy Dz Exy Eyz). simpl.
        apply (proj2 Hns x y z); assumption.
      * pose proof (consistentOn_le_lt D _ Hn x y z Dx Dy Dz) as H.
        destruct (Z.eqb_spec (compareAscending (property n x) (property n z)) 0); lia.
      * pose proof (consistentOn_lt_le D _ Hn x y z Dx Dy Dz) as H.
        destruct (Z.eqb_spec (compareAscending (property n x) (property n z)) 0); lia.
      * pose proof (consistentOn_lt_le D _ Hn x y z Dx Dy Dz) as H.
        destruct (Z.eqb_spec (compareAscending (property n x) (property n z)) 0); lia.
Qed.

End SortByOrder.

Section ArraySortOn.
Import JS.
Context {B : Type} (comparer : B -> B -> Z) (D : B -> Prop).
Hypothesis comparer_turns :
  forall a b, D a -> D b -> comparer a b < 0 -> 0 < comparer b a.
Hypothesis comparer_passes :
  forall a b c, D a -> D b -> D c ->
                comparer a b < 0 -> comparer b c <= 0 -> comparer a c < 0.

Lemma insert_sortedBy_on x s :
  D x -> Forall D s -> sortedBy comparer s -> sortedBy comparer (insert comparer x s).
Proof.
  intros Dx Ds Hs. unfold sortedBy in *.
  induction Hs as [| y s Hy Hs IH]; simpl.
  - repeat constructor.
  - apply Forall_cons_iff in Ds as [Dy Ds].
    destruct (Z.ltb_spec 0 (comparer x y)) as [Hgt | Hle].
    + constructor; [| apply IH; exact Ds].
      eapply Permutation_Forall; [symmetry; apply insert_Permutation |].
      constructor; [lia | exact Hy].
    + constructor; [| constructor; assumption].
      constructor.
      * intros Hlt. apply comparer_turns in Hlt; auto. lia.
      * rewrite Forall_forall in Hy, Ds. apply Forall_forall.
        intros z Hz Hlt. apply (Hy z Hz).
        apply (comparer_passes z x y); auto.
Qed.

Lemma Array_sort_sortedBy_on l :
  Forall D l -> sortedBy comparer (Array_sort comparer l).
Proof.
  induction 1 as [| x l Dx Dl IH]; simpl.
  - constructor.
  - apply insert_sortedBy_on; [exact Dx | | exact IH].
    eapply Permutation_Forall; [symmetry; apply Array_sort_Permutation | exact Dl].
Qed.

End ArraySortOn.

Section ListOrderFacts.

Lemma ForallOrdPairs_map {B C : Type} (R : C -> C -> Prop) (f : B -> C) (l : list B) :
  ForallOrdPairs (fun x y => R (f x) (f y)) l -> ForallOrdPairs R (map f l).
Proof.
  induction 1 as [| b l Hb _ IH]; simpl; constructor; [| exact IH].
  apply Forall_map. exact Hb.
Qed.

Lemma ForallOrdPairs_impl_In {B : Type} (R S : B -> B -> Prop) (l : list B) :
  (forall x y, In x l -> In y l -> R x y -> S x y) ->
  ForallOrdPairs R l -> ForallOrdPairs S l.
Proof.
  intros HRS H. induction H as [| b l Hb _ IH]; constructor.
  - rewrite Forall_forall in *. intros y Hy.
    apply HRS; [left; reflexivity | right; exact Hy | auto].
  - apply IH. intros x y Hx Hy. apply HRS; right; assumption.
Qed.

Lemma ForallOrdPairs_Forall2 {B C : Type} (R : B -> C -> Prop)
    (S : B -> B -> Prop) (T : C -> C -> Prop) (l : list B) (k : list C) :
  (forall b b' c c', R b c -> R b' c' -> S b b' -> T c c') ->
  Forall2 R l k -> ForallOrdPairs S l -> ForallOrdPairs T k.
Proof.
  intros H HR. induction HR as [| b c l k Hbc HR IH]; intros HS.
  - constructor.
  - inversion HS as [| ? ? Hb HS']; subst. constructor; [| apply IH, HS'].
    clear IH HS HS'. induction HR as [| b' c' l k Hbc' _ IH].
    + constructor.
    + inversion Hb; subst. constructor; [eapply H; eauto | apply IH; assumption].
Qed.

End ListOrderFacts.

Section SortBySorted.
Import JS Lodash Comparers.
Context {A : Type} (property : string -> A -> value).
Context (compareAscending : value -> value -> Z).
Context (l : list A) (its : list string).

Hypothesis criteria_consistent :
  forall name, In name its ->
    consistentOn (fun x => In x l)
      (fun x y => compareAscending (property name x) (property name y)).

#[local] Abbreviation byCriteria :=
  (fun x y : A => compareCriteria compareAscending
                    (criteriaOf property its x) (criteriaOf property its y)).

#[local] Abbreviation decorated :=
  (fun d : @Decorated A =>
     criteria d = criteriaOf property its (dvalue d) /\ In (dvalue d) l).

Lemma byCriteria_consistent : consistentOn (fun x => In x l) byCriteria.
Proof. apply compareCriteria_consistentOn, criteria_consistent. Qed.

Lemma decorateFrom_decorated i (l' : list A) :
  incl l' l -> Forall decorated (decorateFrom property i its l').
Proof.
  revert i. induction l' as [| x l' IH]; intros i Hincl; simpl; constructor.
  - simpl. split; [reflexivity | apply Hincl; left; reflexivity].
  - apply IH. intros y Hy. apply Hincl. right. exact Hy.
Qed.

Lemma compareMultiple_turns (a b : @Decorated A) :
  decorated a -> decorated b ->
  compareMultiple compareAscending a b < 0 ->
  0 < compareMultiple compareAscending b a.
Proof.
  intros [Ea Ia] [Eb Ib]. unfold compareMultiple. rewrite Ea, Eb.
  pose proof byCriteria_consistent as Hc.
  destruct (Z.eqb_spec (byCriteria (dvalue a) (dvalue b)) 0) as [E | E].
  - rewrite (consistentOn_zero_sym _ _ Hc _ _ Ia Ib E). simpl. lia.
  - intros Hlt. apply (consistentOn_pos_neg _ _ Hc _ _ Ib Ia) in Hlt.
    destruct (Z.eqb_spec (byCriteria (dvalue b) (dvalue a)) 0); lia.
Qed.

Lemma compareMultiple_passes (a b c : @Decorated A) :
  decorated a -> decorated b -> decorated c ->
  compareMultiple compareAscending a b < 0 ->
  compareMultiple compareAscending b c <= 0 ->
  compareMultiple compareAscending a c < 0.
Proof.
  intros [Ea Ia] [Eb Ib] [Ec Ic]. unfold compareMultiple. rewrite Ea, Eb, Ec.
  pose proof byCriteria_consistent as Hc.
  pose proof (consistentOn_zero_trans _ _ Hc _ _ _ Ia Ib Ic) as Hzero.
  pose proof (consistentOn_le_lt _ _ Hc _ _ _ Ia Ib Ic) as Hlelt.
  pose proof (consistentOn_lt_le _ _ Hc _ _ _ Ia Ib Ic) as Hltle.
  destruct (Z.eqb_spec (byCriteria (dvalue a) (dvalue b)) 0) as [Eab | Eab];
    destruct (Z.eqb_spec (byCriteria (dvalue b) (dvalue c)) 0) as [Ebc | Ebc];
    destruct (Z.eqb_spec (byCriteria (dvalue a) (dvalue c)) 0) as [Eac | Eac];
    lia.
Qed.

(** Under a consistent comparison the sort puts the elements in ascending
    order of their criteria. *)
Lemma sortBy_sorted :
  ForallOrdPairs (fun x y => byCriteria x y <= 0)
    (sortBy property compareAscending l its).
Proof.
  unfold sortBy, baseSortBy. apply ForallOrdPairs_map.
  set (dl := decorateFrom property 0 its l).
  assert (Hdl : Forall decorated dl) by (apply decorateFrom_decorated; intros x Hx; exact Hx).
  assert (Hsorted : sortedBy (compareMultiple compareAscending)
                      (Array_sort (compareMultiple compareAscending) dl)).
  { apply (Array_sort_sortedBy_on _ decorated).
    - apply compareMultiple_turns.
    - apply compareMultiple_passes.
    - exact Hdl. }
  eapply ForallOrdPairs_impl_In; [| exact Hsorted]. simpl.
  assert (Hall : Forall decorated (Array_sort (compareMultiple compareAscending) dl))
    by (eapply Permutation_Forall; [symmetry; apply Array_sort_Permutation | exact Hdl]).
  rewrite Forall_forall in Hall.
  intros d e Hd He Hnot.
  destruct (Hall d Hd) as [Ed Id], (Hall e He) as [Ee Ie].
  unfold compareMultiple in Hnot. rewrite Ed, Ee in Hnot.
  pose proof byCriteria_consistent as Hc.
  destruct (Z.eqb_spec (byCriteria (dvalue e) (dvalue d)) 0) as [E | E].
  - rewrite (consistentOn_zero_sym _ _ Hc _ _ Ie Id E). lia.
  - pose proof (consistentOn_pos_neg _ _ Hc _ _ Ie Id). lia.
Qed.

End SortBySorted.

Section TableOrder.
Import JS Comparers.

Lemma sample_lessons_consistent name :
  In name ["title"; "active"] ->
  consistentOn (fun x => In x Samples.lessons)
    (fun x y => Samples.compareAscendingPrimitive (get name x) (get name y)).
Proof.
  intros [<- | [<- | []]]; split.
  - intros x y Hx Hy. unfold Samples.lessons in Hx, Hy. simpl in Hx, Hy.
    destruct Hx as [<- | [<- | [<- | []]]], Hy as [<- | [<- | [<- | []]]];
      vm_compute; reflexivity.
  - intros x y z Hx Hy Hz. unfold Samples.lessons in Hx, Hy, Hz.
    simpl in Hx, Hy, Hz.
    destruct Hx as [<- | [<- | [<- | []]]], Hy as [<- | [<- | [<- | []]]],
      Hz as [<- | [<- | [<- | []]]];
      vm_compute; intros H1 H2 H3;
      first [discriminate H3 | apply H1; reflexivity | apply H2; reflexivity].
  - intros x y Hx Hy. unfold Samples.lessons in Hx, Hy. simpl in Hx, Hy.
    destruct Hx as [<- | [<- | [<- | []]]], Hy as [<- | [<- | [<- | []]]];
      vm_compute; reflexivity.
  - intros x y z Hx Hy Hz. unfold Samples.lessons in Hx, Hy, Hz.
    simpl in Hx, Hy, Hz.
    destruct Hx as [<- | [<- | [<- | []]]], Hy as [<- | [<- | [<- | []]]],
      Hz as [<- | [<- | [<- | []]]];
      vm_compute; intros H1 H2 H3;
      first [discriminate H3 | apply H1; reflexivity | apply H2; reflexivity].
Qed.

(** X14: when the comparison of titles and the comparison of [active]
    flags are consistent on the lessons, the rows of the lesson list are in
    ascending order of title, and rows of equal title in ascending order of
    [active]: of two rows the earlier one has the lesser title, or an equal
    title and an [active] flag that is not greater. *)
Theorem lesson_table_is_sorted
    (getLearnersForLesson : obj -> list value)
    (getLessonStatusTally : value -> list value -> value)
    (getGroupNames : value -> value)
    (compareAscending : value -> value -> Z)
    (lessons : list obj) (filterValue : value) :
  (forall name, In name ["title"; "active"] ->
     consistentOn (fun x => In x lessons)
       (fun x y => compareAscending (get name x) (get name y))) ->
  ForallOrdPairs
    (fun r1 r2 : obj =>
       compareAscending (get "title" r1) (get "title" r2) < 0 \/
       (compareAscending (get "title" r1) (get "title" r2) = 0 /\
        compareAscending (get "active" r1) (get "active" r2) <= 0))
    (ReportsLessonListPage.table getLearnersForLesson getLessonStatusTally
       getGroupNames compareAscending lessons filterValue).
Proof.
  intros Hcons. unfold ReportsLessonListPage.table. apply ForallOrdPairs_map.
  unfold ReportsLessonListPage.sorted.
  eapply ForallOrdPairs_impl;
    [| apply (sortBy_sorted get compareAscending
                (ReportsLessonListPage.filtered lessons filterValue)
                ["title"; "active"])].
  - simpl. intros x y H. unfold get in *.
    rewrite !lesson_tableRow_underived by discriminate.
    destruct (Z.eqb_spec
                (compareAscending (default VUndefined (x !! "title"))
                   (default VUndefined (y !! "title"))) 0) as [E | E].
    + destruct (Z.eqb_spec
                  (compareAscending (default VUndefined (x !! "active"))
                     (default VUndefined (y !! "active"))) 0); right; lia.
    + left. lia.
  - intros name Hname.
    apply (consistentOn_subdomain _ _ (Hcons name Hname)).
    intros x Hx. unfold ReportsLessonListPage.filtered, Array_filter in Hx.
    apply filter_In in Hx as [Hx _]. exact Hx.
Qed.

Lemma lesson_table_is_sorted_witness :
  ForallOrdPairs
    (fun r1 r2 : obj =>
       Samples.compareAscendingPrimitive (get "title" r1) (get "title" r2) < 0 \/
       (Samples.compareAscendingPrimitive (get "title" r1) (get "title" r2) = 0 /\
        Samples.compareAscendingPrimitive (get "active" r1) (get "active" r2) <= 0))
    (ReportsLessonListPage.table Samples.getLearnersForLesson
       Samples.getLessonStatusTally Samples.getGroupNames
       Samples.compareAscendingPrimitive Samples.lessons (VStr "allLessons")).
Proof.
  apply (lesson_table_is_sorted Samples.getLearnersForLesson
           Samples.getLessonStatusTally Samples.getGroupNames
           Samples.compareAscendingPrimitive Samples.lessons (VStr "allLessons")).
  exact sample_lessons_consistent.
Defined.

Lemma sample_contents_consistent :
  consistentOn
    (fun x => In x (ReportsLessonReportPage.contentArray Samples.node_ids
                      Samples.contentNodeMap))
    (fun x y => Samples.compareAscendingPrimitive
                  (ReportsLessonReportPage.contentProperty "title" x)
                  (ReportsLessonReportPage.contentProperty "title" y)).
Proof.
  split.
  - intros x y Hx Hy.
    unfold ReportsLessonReportPage.contentArray, Samples.node_ids in Hx, Hy.
    simpl in Hx, Hy.
    destruct Hx as [<- | [<- | [<- | []]]], Hy as [<- | [<- | [<- | []]]];
      vm_compute; reflexivity.
  - intros x y z Hx Hy Hz.
    unfold ReportsLessonReportPage.contentArray, Samples.node_ids in Hx, Hy, Hz.
    simpl in Hx, Hy, Hz.
    destruct Hx as [<- | [<- | [<- | []]]], Hy as [<- | [<- | [<- | []]]],
      Hz as [<- | [<- | [<- | []]]];
      vm_compute; intros H1 H2 H3;
      first [discriminate H3 | apply H1; reflexivity | apply H2; reflexivity].
Qed.

(** X15: when the comparison of titles is consistent on the contents of
    the lesson, the rows of the lesson report are in ascending order of
    title: no row has a title greater than that of a later row. *)
Theorem report_table_is_sorted
    (node_ids : list string) (contentNodeMap : gmap string obj)
    (recipients : list value)
    (getContentStatusTally : value -> list value -> Coach.Tally)
    (getContentAvgTimeSpent : value -> list value -> value)
    (compareAscending : value -> value -> Z) (rows : list obj) :
  consistentOn
    (fun x => In x (ReportsLessonReportPage.contentArray node_ids contentNodeMap))
    (fun x y => compareAscending
                  (ReportsLessonReportPage.contentProperty "title" x)
                  (ReportsLessonReportPage.contentProperty "title" y)) ->
  ReportsLessonReportPage.table node_ids contentNodeMap recipients
    getContentStatusTally getContentAvgTimeSpent compareAscending = Some rows ->
  ForallOrdPairs
    (fun r1 r2 : obj => compareAscending (get "title" r1) (get "title" r2) <= 0)
    rows.
Proof.
  intros Hcons Hrows. apply table_Some_rows in Hrows.
  eapply (ForallOrdPairs_Forall2 _
            (fun x y : option obj =>
               compareAscending (ReportsLessonReportPage.contentProperty "title" x)
                 (ReportsLessonReportPage.contentProperty "title" y) <= 0));
    [| exact Hrows |].
  - intros b b' c c' (x & -> & ->) (y & -> & ->) H. simpl in H. unfold get in *.
    rewrite !content_row_underived by discriminate. exact H.
  - unfold ReportsLessonReportPage.sorted.
    eapply ForallOrdPairs_impl;
      [| apply (sortBy_sorted ReportsLessonReportPage.contentProperty
                  compareAscending
                  (ReportsLessonReportPage.contentArray node_ids contentNodeMap)
                  ["title"])].
    + simpl. intros x y H.
      destruct x as [x |], y as [y |]; simpl in *;
        match type of H with
        | context [Z.eqb ?a 0] => destruct (Z.eqb_spec a 0); lia
        end.
    + intros name [<- | []]. exact Hcons.
Qed.

Lemma report_table_is_sorted_witness :
  exists rows,
    ReportsLessonReportPage.table Samples.node_ids Samples.contentNodeMap
      Samples.recipients Samples.getContentStatusTally
      Samples.getContentAvgTimeSpent Samples.compareAscendingPrimitive
    = Some rows /\
    ForallOrdPairs
      (fun r1 r2 : obj =>
         Samples.compareAscendingPrimitive (get "title" r1) (get "title" r2) <= 0)
      rows.
Proof.
  destruct sample_report_is_Some as [rows E].
  exists rows. split; [exact E |].
  exact (report_table_is_sorted _ _ _ _ _ _ rows sample_contents_consistent E).
Defined.

End TableOrder.

(** ** ReportsLessonReportPage: when the table exists, and the title cell *)

Section LessonReportFurther.
Import JS ReportsLessonReportPage ReportsLessonReportPageCell.

Lemma Permutation_Forall2_exists {B C : Type} (R : B -> C -> Prop)
    (l l' : list B) (k : list C) :
  Permutation l l' -> Forall2 R l k ->
  exists k', Permutation k k' /\ Forall2 R l' k'.
Proof.
  intros Hp. revert k.
  induction Hp as [| b l l' _ IH | b b' l | l l' l'' _ IH1 _ IH2]; intros k HR.
  - inversion HR; subst. exists []. split; constructor.
  - inversion HR as [| ? c ? k0 Hbc HR']; subst.
    destruct (IH k0 HR') as (k' & Hk & HR''). exists (c :: k').
    split; [apply perm_skip, Hk | constructor; assumption].
  - inversion HR as [| ? c ? k0 Hbc HR']; subst.
    inversion HR' as [| ? c' ? k1 Hbc' HR'']; subst.
    exists (c' :: c :: k1). split; [apply perm_swap |].
    repeat constructor; assumption.
  - destruct (IH1 k HR) as (k' & Hk & HR').
    destruct (IH2 k' HR') as (k'' & Hk' & HR'').
    exists k''. split; [etransitivity; eassumption | exact HR''].
Qed.

Context (node_ids : list string) (contentNodeMap : gmap string obj).
Context (recipients : list value).
Context (getContentStatusTally : value -> list value -> Coach.Tally).
Context (getContentAvgTimeSpent : value -> list value -> value).
Context (compareAscending : value -> value -> Z).

#[local] Abbreviation tableRow :=
  (ReportsLessonReportPage.tableRow recipients getContentStatusTally
     getContentAvgTimeSpent).
#[local] Abbreviation table :=
  (ReportsLessonReportPage.table node_ids contentNodeMap recipients
     getContentStatusTally getContentAvgTimeSpent compareAscending).

(** X16: for node ids none of which names a member of [Object.prototype]
    (where [contentNodeMap[node_id]] finds what the map itself holds and
    nothing else), the lesson report has a table exactly when
    [contentNodeMap] knows every node id of the lesson; a single unknown id
    makes the row callback read [content_id] of [undefined], and the whole
    table is lost to the [TypeError].  A lesson without node ids has the
    empty table. *)
Theorem report_table_needs_every_node :
  Forall (fun node_id => ~ In node_id Language.inheritedNames) node_ids ->
  Forall (fun node_id =>
            Language.readMember contentNodeMap node_id
            = match contentNodeMap !! node_id with
              | Some content => Language.OwnEntry content
              | None => Language.NoMember
              end) node_ids /\
  (is_Some table
   <-> forall node_id, In node_id node_ids ->
         exists content,
           Language.readMember contentNodeMap node_id = Language.OwnEntry content) /\
  (table = None
   <-> exists node_id, In node_id node_ids /\
         Language.readMember contentNodeMap node_id = Language.NoMember) /\
  (node_ids = [] -> table = Some []).
Proof.
  intros Hnames.
  assert (Hread : Forall (fun node_id =>
                    Language.readMember contentNodeMap node_id
                    = match contentNodeMap !! node_id with
                      | Some content => Language.OwnEntry content
                      | None => Language.NoMember
                      end) node_ids).
  { eapply Forall_impl; [| exact Hnames]. cbv beta. intros node_id Hn.
    unfold Language.readMember. destruct (contentNodeMap !! node_id); [reflexivity |].
    rewrite bool_decide_eq_false_2; [reflexivity |].
    intros Hin. apply Hn. apply (proj1 (list_elem_of_In _ _)). exact Hin. }
  split; [exact Hread |]. rewrite Forall_forall in Hread.
  assert (Hsome : is_Some table
                  <-> forall node_id, In node_id node_ids ->
                                      is_Some (contentNodeMap !! node_id)).
  { rewrite table_is_Some_iff, Forall_forall. reflexivity. }
  assert (Hown : forall node_id, In node_id node_ids ->
            (is_Some (contentNodeMap !! node_id)
             <-> exists content,
                   Language.readMember contentNodeMap node_id
                   = Language.OwnEntry content)).
  { intros node_id Hin. rewrite (Hread node_id Hin).
    destruct (contentNodeMap !! node_id) as [c |].
    - split; eauto.
    - split; [intros [c Hc]; discriminate | intros [c Hc]; discriminate]. }
  assert (Hnone : forall node_id, In node_id node_ids ->
            (contentNodeMap !! node_id = None
             <-> Language.readMember contentNodeMap node_id = Language.NoMember)).
  { intros node_id Hin. rewrite (Hread node_id Hin).
    destruct (contentNodeMap !! node_id) as [c |]; split; congruence. }
  split; [| split].
  - rewrite Hsome. split; intros H node_id Hin; apply (Hown node_id Hin), H, Hin.
  - rewrite eq_None_not_Some, Hsome. split.
    + intros Hnot.
      destruct (Exists_dec (fun node_id => contentNodeMap !! node_id = None) node_ids)
        as [Hex | Hnex].
      * intros node_id. destruct (contentNodeMap !! node_id); [right | left]; congruence.
      * apply Exists_exists in Hex as (node_id & Hin & Hn).
        exists node_id. split; [exact Hin | apply (Hnone node_id Hin), Hn].
      * exfalso. apply Hnot. intros node_id Hin.
        destruct (contentNodeMap !! node_id) eqn:E; [eauto |].
        exfalso. apply Hnex. apply Exists_exists. eauto.
    + intros (node_id & Hin & Hn) Hall.
      apply (Hnone node_id Hin) in Hn.
      destruct (Hall node_id Hin) as [c Hc]. congruence.
  - intros ->. reflexivity.
Qed.

(** X17: when the lesson report has a table, it has one row for each node
    id of the lesson, a repeated id giving a repeated row: the rows are, in
    another order, the rows of the contents taken in the order of the node
    ids. *)
Theorem report_rows_are_lesson_contents (rows : list obj) :
  table = Some rows ->
  length rows = length node_ids /\
  exists unsorted,
    mapM tableRow (contentArray node_ids contentNodeMap) = Some unsorted /\
    Permutation rows unsorted.
Proof.
  intros Hrows. apply mapM_Some in Hrows.
  assert (Hp : Permutation (sorted node_ids contentNodeMap compareAscending)
                 (contentArray node_ids contentNodeMap))
    by apply sortBy_Permutation.
  split.
  - rewrite <- (Forall2_length Hrows), (Permutation_length Hp).
    unfold contentArray. apply length_map.
  - destruct (Permutation_Forall2_exists _ _ _ _ Hp Hrows) as (unsorted & Hu & HR).
    exists unsorted. split; [apply mapM_Some; exact HR | exact Hu].
Qed.

End LessonReportFurther.

Lemma report_table_needs_every_node_witness :
  is_Some
    (ReportsLessonReportPage.table Samples.node_ids Samples.contentNodeMap
       Samples.recipients Samples.getContentStatusTally
       Samples.getContentAvgTimeSpent Samples.compareAscendingPrimitive)
  <-> forall node_id, In node_id Samples.node_ids ->
        exists content,
          Language.readMember Samples.contentNodeMap node_id
          = Language.OwnEntry content.
Proof.
  refine (proj1 (proj2 (report_table_needs_every_node Samples.node_ids
                          Samples.contentNodeMap Samples.recipients
                          Samples.getContentStatusTally
                          Samples.getContentAvgTimeSpent
                          Samples.compareAscendingPrimitive _))).
  unfold Samples.node_ids, Language.inheritedNames.
  repeat constructor; simpl; intuition discriminate.
Defined.

Lemma report_rows_are_lesson_contents_witness :
  exists rows : list JS.obj,
    ReportsLessonReportPage.table Samples.node_ids Samples.contentNodeMap
      Samples.recipients Samples.getContentStatusTally
      Samples.getContentAvgTimeSpent Samples.compareAscendingPrimitive
    = Some rows /\ length rows = 3%nat.
Proof.
  destruct sample_report_is_Some as [rows E].
  exists rows. split; [exact E |].
  exact (proj1 (report_rows_are_lesson_contents Samples.node_ids
                  Samples.contentNodeMap Samples.recipients
                  Samples.getContentStatusTally Samples.getContentAvgTimeSpent
                  Samples.compareAscendingPrimitive rows E)).
Defined.

Section TitleCellFurther.
Import JS ReportsLessonReportPage ReportsLessonReportPageCell.

(** X18: in the lesson report, the title of a content that has no field of
    its own named [hasAssignments] is a link exactly when the tally counts
    of the content sum to more than 0.  The link goes to the learner list
    of the exercise when the content's [kind] is ['exercise'] and to the
    learner list of the resource otherwise, with the content's
    [content_id]; with a sum of 0 the title is plain text. *)
Theorem titleCell_links_when_tallied
    (recipients : list value)
    (getContentStatusTally : value -> list value -> Coach.Tally)
    (getContentAvgTimeSpent : value -> list value -> value) (c row : obj) :
  c !! "hasAssignments" = None ->
  tableRow recipients getContentStatusTally getContentAvgTimeSpent (Some c)
  = Some row ->
  let total := tallySum (getContentStatusTally (get "content_id" c) recipients) in
  0 <= total /\
  (total = 0 -> titleCell row = TitleText (get "title" c)) /\
  (0 < total -> get "kind" c = VStr "exercise" ->
   titleCell row = ExerciseLearnerListLink (get "content_id" c) (get "title" c)) /\
  (0 < total -> get "kind" c <> VStr "exercise" ->
   titleCell row = ResourceLearnerListLink (get "content_id" c) (get "title" c)).
Proof.
  intros Hnone Hrow total. simpl in Hrow. injection Hrow as <-.
  assert (Hh : get "hasAssignments"
                 (Object_assign
                    (derivedFields recipients getContentStatusTally
                       getContentAvgTimeSpent c) c) = VNum total).
  { unfold get. rewrite content_row_lookup, Hnone,
      content_derivedFields_hasAssignments. reflexivity. }
  assert (Hk : forall k, k <> "avgTimeSpent" -> k <> "tally" ->
                         k <> "hasAssignments" ->
                         get k (Object_assign
                                  (derivedFields recipients getContentStatusTally
                                     getContentAvgTimeSpent c) c) = get k c).
  { intros k H1 H2 H3. unfold get. rewrite content_row_underived by assumption.
    reflexivity. }
  unfold titleCell. rewrite Hh, !Hk by discriminate. cbn [ToBoolean].
  split; [subst total; rewrite tallySum_total; lia |].
  split; [| split].
  - intros ->. simpl. rewrite Bool.andb_false_r. reflexivity.
  - intros Hpos Hkind. rewrite Hkind. simpl.
    destruct (Z.eqb_spec total 0); [lia | reflexivity].
  - intros Hpos Hkind. apply strict_eq_str_false in Hkind. rewrite Hkind. simpl.
    destruct (Z.eqb_spec total 0); [lia | reflexivity].
Qed.

Lemma titleCell_links_when_tallied_witness :
  exists row,
    tableRow Samples.recipients Samples.getContentStatusTally
      Samples.getContentAvgTimeSpent
      (Some (Samples.content "n2" "c2" "Practice" "exercise")) = Some row /\
    titleCell row = ExerciseLearnerListLink (VStr "c2") (VStr "Practice").
Proof.
  eexists. split; [reflexivity |].
  refine (proj1 (proj2 (proj2 (titleCell_links_when_tallied
            Samples.recipients Samples.getContentStatusTally
            Samples.getContentAvgTimeSpent
            (Samples.content "n2" "c2" "Practice" "exercise") _ _ eq_refl)))
            _ _).
  - by_computation.
  - reflexivity.
  - reflexivity.
Defined.

End TitleCellFurther.

(** ** Filtering and sorting *)

Section ArraySortFilter.
Import JS.
Context {B : Type} (comparer : B -> B -> Z) (D : B -> Prop).
Hypothesis comparer_turns :
  forall a b, D a -> D b -> comparer a b < 0 -> 0 < comparer b a.
Hypothesis comparer_turns_back :
  forall a b, D a -> D b -> 0 < comparer a b -> comparer b a < 0.
Hypothesis comparer_passes :
  forall a b c, D a -> D b -> D c ->
                comparer a b < 0 -> comparer b c <= 0 -> comparer a c < 0.

Lemma insert_not_greater x s :
  Forall (fun w => comparer x w <= 0) s -> insert comparer x s = x :: s.
Proof.
  intros H. destruct s as [| y s]; [reflexivity |]. simpl.
  apply Forall_cons_iff in H as [Hy _].
  destruct (Z.ltb_spec 0 (comparer x y)); [lia | reflexivity].
Qed.

(** In a sorted list, an element that is not greater than the head is not
    greater than any element. *)
Lemma sortedBy_head_not_greater x y s :
  D x -> D y -> Forall D s -> sortedBy comparer (y :: s) ->
  comparer x y <= 0 -> Forall (fun w => comparer x w <= 0) (y :: s).
Proof.
  intros Dx Dy Ds Hs Hxy. constructor; [exact Hxy |].
  unfold sortedBy in Hs. inversion Hs as [| ? ? Hy _]; subst.
  rewrite Forall_forall in *. intros w Hw.
  destruct (Z.le_gt_cases (comparer x w) 0) as [H | H]; [exact H | exfalso].
  apply (Hy w Hw).
  apply (comparer_passes w x y); [auto | exact Dx | exact Dy | | exact Hxy].
  apply comparer_turns_back; auto.
Qed.

Lemma filter_insert_sorted (P : B -> bool) x s :
  D x -> Forall D s -> sortedBy comparer s ->
  List.filter P (insert comparer x s)
  = if P x then insert comparer x (List.filter P s) else List.filter P s.
Proof.
  intros Dx Ds Hs. induction s as [| y s IH].
  - simpl. destruct (P x); reflexivity.
  - assert (Dy : D y) by (inversion Ds; assumption).
    assert (Ds' : Forall D s) by (inversion Ds; assumption).
    assert (Hs' : sortedBy comparer s) by (inversion Hs; assumption).
    simpl. destruct (Z.ltb_spec 0 (comparer x y)) as [Hgt | Hle].
    + simpl. rewrite (IH Ds' Hs'). destruct (P x), (P y); simpl; try reflexivity.
      destruct (Z.ltb_spec 0 (comparer x y)); [reflexivity | lia].
    + pose proof (sortedBy_head_not_greater x y s Dx Dy Ds' Hs Hle) as Hall.
      change (List.filter P (x :: y :: s)
              = if P x then insert comparer x (List.filter P (y :: s))
                else List.filter P (y :: s)).
      cbn [List.filter]. destruct (P x); [| reflexivity].
      rewrite insert_not_greater; [reflexivity |].
      change (Forall (fun w => comparer x w <= 0) (List.filter P (y :: s))).
      apply Forall_forall. intros w Hw. apply filter_In in Hw as [Hw _].
      rewrite Forall_forall in Hall. apply Hall, Hw.
Qed.

(** Under a consistent comparer, sorting and then selecting is selecting
    and then sorting. *)
Lemma filter_Array_sort_comm (P : B -> bool) l :
  Forall D l ->
  List.filter P (Array_sort comparer l) = Array_sort comparer (List.filter P l).
Proof.
  induction 1 as [| x l Dx Dl IH]; [reflexivity |].
  change (Array_sort comparer (x :: l))
    with (insert comparer x (Array_sort comparer l)).
  rewrite filter_insert_sorted.
  - cbn [List.filter]. rewrite IH. destruct (P x); reflexivity.
  - exact Dx.
  - eapply Permutation_Forall; [symmetry; apply Array_sort_Permutation | exact Dl].
  - apply (Array_sort_sortedBy_on comparer D); assumption.
Qed.

End ArraySortFilter.

Section ArraySortRelated.
Import JS.
Context {B C : Type} (c1 : B -> B -> Z) (c2 : C -> C -> Z).

Lemma insert_Forall2 (R : B -> C -> Prop) a b s1 s2 :
  R a b ->
  Forall2 (fun a' b' => R a' b' /\ (0 <? c1 a a') = (0 <? c2 b b')) s1 s2 ->
  Forall2 R (insert c1 a s1) (insert c2 b s2).
Proof.
  intros Hab H. induction H as [| a' b' s1 s2 [HR HQ] Hrest IH]; simpl.
  - repeat constructor. exact Hab.
  - rewrite <- HQ. destruct (0 <? c1 a a').
    + constructor; assumption.
    + constructor; [exact Hab |]. constructor; [exact HR |].
      eapply Forall2_impl; [| exact Hrest]. simpl. intros ? ? [H _]. exact H.
Qed.

Lemma Forall2_combine_and (R Q : B -> C -> Prop) l k :
  Forall2 R l k ->
  Forall (fun q => Q (fst q) (snd q)) (combine l k) ->
  Forall2 (fun x y => R x y /\ Q x y) l k.
Proof.
  induction 1 as [| x y l k Hxy _ IH]; simpl; intros H; constructor.
  - inversion H; subst. split; assumption.
  - apply IH. inversion H; assumption.
Qed.

(** Two lists whose elements answer every comparison of an earlier with a
    later element alike are sorted alike. *)
Lemma Array_sort_Forall2 l : forall k (R : B -> C -> Prop),
  Forall2 R l k ->
  ForallOrdPairs
    (fun p q => (0 <? c1 (fst p) (fst q)) = (0 <? c2 (snd p) (snd q)))
    (combine l k) ->
  Forall2 R (Array_sort c1 l) (Array_sort c2 k).
Proof.
  induction l as [| a l IH]; intros k R HR Hagree.
  - inversion HR; subst. constructor.
  - inversion HR as [| ? b ? k' Hab HR']; subst. simpl in Hagree.
    inversion Hagree as [| ? ? Hhead Htail]; subst.
    simpl. apply insert_Forall2; [exact Hab |].
    apply IH; [| exact Htail].
    apply (Forall2_combine_and R
             (fun a' b' => (0 <? c1 a a') = (0 <? c2 b b'))); assumption.
Qed.

End ArraySortRelated.

Section SortByFilter.
Import JS Lodash Comparers.
Context {A : Type} (property : string -> A -> value).
Context (compareAscending : value -> value -> Z).
Context (l : list A) (its : list string) (P : A -> bool).

Hypothesis criteria_consistent :
  forall name, In name its ->
    consistentOn (fun x => In x l)
      (fun x y => compareAscending (property name x) (property name y)).

#[local] Abbreviation decorated :=
  (fun d : @Decorated A =>
     criteria d = criteriaOf property its (dvalue d) /\ In (dvalue d) l).

Lemma compareMultiple_turns_back (a b : @Decorated A) :
  decorated a -> decorated b ->
  0 < compareMultiple compareAscending a b ->
  compareMultiple compareAscending b a < 0.
Proof.
  intros [Ea Ia] [Eb Ib]. unfold compareMultiple. rewrite Ea, Eb.
  pose proof (byCriteria_consistent property compareAscending l its
                criteria_consistent) as Hc.
  destruct (Z.eqb_spec
              (compareCriteria compareAscending
                 (criteriaOf property its (dvalue a))
                 (criteriaOf property its (dvalue b))) 0) as [E | E].
  - rewrite (consistentOn_zero_sym _ _ Hc _ _ Ia Ib E). simpl. lia.
  - intros Hgt. apply (consistentOn_pos_neg _ _ Hc _ _ Ia Ib) in Hgt.
    match goal with
    | |- context [Z.eqb ?r 0] => destruct (Z.eqb_spec r 0); lia
    end.
Qed.

(** The decorated elements that pass [P], and the decoration of the
    elements that pass [P]: the same values and criteria, with indices that
    grow along both lists. *)
Lemma decorate_filter_combine i j (l' : list A) :
  let kept := List.filter (fun d => P (dvalue d)) (decorateFrom property i its l') in
  let fresh := decorateFrom property j its (List.filter P l') in
  Forall2 (fun d e => criteria d = criteria e /\ dvalue d = dvalue e) kept fresh /\
  Forall (fun pq => i <= index (fst pq) /\ j <= index (snd pq)) (combine kept fresh) /\
  ForallOrdPairs
    (fun p q => index (fst p) < index (fst q) /\ index (snd p) < index (snd q))
    (combine kept fresh).
Proof.
  revert i j. induction l' as [| x l' IH]; intros i j; cbn zeta.
  - simpl. repeat split; constructor.
  - destruct (IH (i + 1) (if P x then j + 1 else j)) as (H2 & Hb & Ho).
    cbn zeta in H2, Hb, Ho. simpl. destruct (P x) eqn:Px; simpl.
    + split; [| split].
      * constructor; [split; reflexivity | exact H2].
      * constructor; [simpl; lia |].
        eapply Forall_impl; [| exact Hb]. simpl. intros pq [? ?]. lia.
      * constructor; [| exact Ho].
        eapply Forall_impl; [| exact Hb]. simpl. intros pq [? ?]. lia.
    + split; [exact H2 |]. split; [| exact Ho].
      eapply Forall_impl; [| exact Hb]. simpl. intros pq [? ?]. lia.
Qed.

Lemma Forall2_combine_Forall {B C : Type} (R : B -> C -> Prop) (s : list B) (t : list C) :
  Forall2 R s t -> Forall (fun pq => R (fst pq) (snd pq)) (combine s t).
Proof. induction 1; simpl; constructor; assumption. Qed.

Lemma Forall2_map_eq {B C E : Type} (f : B -> E) (g : C -> E) (s : list B) (t : list C) :
  Forall2 (fun b c => f b = g c) s t -> map f s = map g t.
Proof. induction 1 as [| b c s t H _ IH]; simpl; [| rewrite H, IH]; reflexivity. Qed.

(** Under a consistent comparison, [sortBy] commutes with selection. *)
Lemma sortBy_filter_comm :
  sortBy property compareAscending (List.filter P l) its
  = List.filter P (sortBy property compareAscending l its).
Proof.
  unfold sortBy, baseSortBy. rewrite filter_map_comm.
  set (dl := decorateFrom property 0 its l).
  assert (Hdl : Forall decorated dl)
    by (apply decorateFrom_decorated; intros x Hx; exact Hx).
  rewrite (filter_Array_sort_comm (compareMultiple compareAscending) decorated).
  - symmetry. apply Forall2_map_eq.
    destruct (decorate_filter_combine 0 0 l) as (H2 & _ & Ho).
    cbn zeta in H2, Ho. fold dl in H2, Ho.
    eapply Forall2_impl;
      [| apply (Array_sort_Forall2 (compareMultiple compareAscending)
                  (compareMultiple compareAscending) _ _ _ H2)].
    + simpl. intros d e [_ H]. exact H.
    + pose proof (Forall2_combine_Forall _ _ _ H2) as Hrel.
      rewrite Forall_forall in Hrel.
      eapply ForallOrdPairs_impl_In; [| exact Ho]. simpl.
      intros p q Hp Hq [H1 H2'].
      destruct (Hrel p Hp) as [Ep _], (Hrel q Hq) as [Eq _].
      unfold compareMultiple. rewrite <- Ep, <- Eq.
      destruct (Z.eqb_spec
                  (compareCriteria compareAscending (criteria (fst p))
                     (criteria (fst q))) 0) as [E | E]; [| reflexivity].
      destruct (Z.ltb_spec 0 (index (fst p) - index (fst q)));
        destruct (Z.ltb_spec 0 (index (snd p) - index (snd q))); lia || reflexivity.
  - apply (compareMultiple_turns property compareAscending l its criteria_consistent).
  - apply compareMultiple_turns_back.
  - apply (compareMultiple_passes property compareAscending l its criteria_consistent).
  - exact Hdl.
Qed.

End SortByFilter.

Section TableFilterSort.
Import JS Comparers ReportsLessonListPage.

Lemma lesson_tableRow_active
    (getLearnersForLesson : obj -> list value)
    (getLessonStatusTally : value -> list value -> value)
    (getGroupNames : value -> value) (lesson : obj) :
  get "active"
    (tableRow getLearnersForLesson getLessonStatusTally getGroupNames lesson)
  = get "active" lesson.
Proof. unfold get. rewrite lesson_tableRow_underived by discriminate. reflexivity. Qed.

(** X19: filtering and sorting commute.  When the comparisons of titles and
    of [active] flags are consistent on the lessons, the table under
    ['activeLessons'] is the table under ['allLessons'] with the rows whose
    [active] is falsy taken out, the other rows keeping their order; and
    under ['inactiveLessons'] the same with the rows whose [active] is
    truthy taken out. *)
Theorem filtered_table_is_filtered_full_table
    (getLearnersForLesson : obj -> list value)
    (getLessonStatusTally : value -> list value -> value)
    (getGroupNames : value -> value)
    (compareAscending : value -> value -> Z) (lessons : list obj) :
  (forall name, In name ["title"; "active"] ->
     consistentOn (fun x => In x lessons)
       (fun x y => compareAscending (get name x) (get name y))) ->
  table getLearnersForLesson getLessonStatusTally getGroupNames compareAscending
    lessons (VStr "activeLessons")
  = List.filter (fun row => ToBoolean (get "active" row))
      (table getLearnersForLesson getLessonStatusTally getGroupNames
         compareAscending lessons (VStr "allLessons")) /\
  table getLearnersForLesson getLessonStatusTally getGroupNames compareAscending
    lessons (VStr "inactiveLessons")
  = List.filter (fun row => negb (ToBoolean (get "active" row)))
      (table getLearnersForLesson getLessonStatusTally getGroupNames
         compareAscending lessons (VStr "allLessons")).
Proof.
  intros Hcons. unfold table, sorted.
  rewrite filtered_all, filtered_active_truthy, filtered_inactive_falsy.
  rewrite !filter_map_comm.
  rewrite !(sortBy_filter_comm get compareAscending lessons ["title"; "active"])
    by exact Hcons.
  split; f_equal; apply filter_ext_Forall, Forall_forall; intros lesson _;
    rewrite lesson_tableRow_active; reflexivity.
Qed.

Lemma filtered_table_is_filtered_full_table_witness :
  table Samples.getLearnersForLesson Samples.getLessonStatusTally
    Samples.getGroupNames Samples.compareAscendingPrimitive
    Samples.lessons (VStr "activeLessons")
  = List.filter (fun row => ToBoolean (get "active" row))
      (table Samples.getLearnersForLesson Samples.getLessonStatusTally
         Samples.getGroupNames Samples.compareAscendingPrimitive
         Samples.lessons (VStr "allLessons")).
Proof.
  apply (filtered_table_is_filtered_full_table Samples.getLearnersForLesson
           Samples.getLessonStatusTally Samples.getGroupNames
           Samples.compareAscendingPrimitive Samples.lessons).
  exact sample_lessons_consistent.
Defined.

End TableFilterSort.

(** ** Input that is in order already *)

Section SortedInput.
Import JS Lodash.

Lemma decorateFrom_sorted_fixed {A : Type} (property : string -> A -> value)
    (compareAscending : value -> value -> Z) (its : list string) (l : list A) :
  ForallOrdPairs
    (fun x y => compareCriteria compareAscending
                  (criteriaOf property its x) (criteriaOf property its y) <= 0) l ->
  forall i,
    Array_sort (compareMultiple compareAscending) (decorateFrom property i its l)
    = decorateFrom property i its l.
Proof.
  induction 1 as [| x l Hx _ IH]; intros i; [reflexivity |].
  cbn [decorateFrom Array_sort foldr].
  change (foldr (insert (compareMultiple compareAscending)) []
            (decorateFrom property (i + 1) its l))
    with (Array_sort (compareMultiple compareAscending)
            (decorateFrom property (i + 1) its l)).
  rewrite IH. apply insert_not_greater.
  pose proof (decorateFrom_index_ge property (i + 1) its l) as Hge.
  pose proof (decorateFrom_criteria property (i + 1) its l) as Hcr.
  assert (Hin : Forall (fun d => In (dvalue d) l) (decorateFrom property (i + 1) its l)).
  { apply Forall_forall. intros d Hd.
    rewrite <- (map_dvalue_decorateFrom property (i + 1) its l).
    apply in_map. exact Hd. }
  rewrite Forall_forall in *. intros d Hd.
  unfold compareMultiple. cbn [criteria index]. rewrite (Hcr d Hd).
  specialize (Hx (dvalue d) (Hin d Hd)). specialize (Hge d Hd). cbv beta in Hge.
  match goal with
  | |- context [Z.eqb ?r 0] => destruct (Z.eqb_spec r 0); lia
  end.
Qed.

(** X20: lessons that come in order stay in order.  When each lesson has,
    against every later lesson, a lesser title or an equal title and an
    [active] flag that is not greater, the sort moves nothing: the rows are
    those of the lessons that pass the filter, in the order of the
    lessons. *)
Theorem ordered_lessons_keep_their_order
    (getLearnersForLesson : obj -> list value)
    (getLessonStatusTally : value -> list value -> value)
    (getGroupNames : value -> value)
    (compareAscending : value -> value -> Z)
    (lessons : list obj) (filterValue : value) :
  ForallOrdPairs
    (fun x y : obj =>
       compareAscending (get "title" x) (get "title" y) < 0 \/
       (compareAscending (get "title" x) (get "title" y) = 0 /\
        compareAscending (get "active" x) (get "active" y) <= 0))
    lessons ->
  ReportsLessonListPage.table getLearnersForLesson getLessonStatusTally
    getGroupNames compareAscending lessons filterValue
  = map (ReportsLessonListPage.tableRow getLearnersForLesson
           getLessonStatusTally getGroupNames)
      (ReportsLessonListPage.filtered lessons filterValue).
Proof.
  intros Hord. unfold ReportsLessonListPage.table, ReportsLessonListPage.sorted.
  f_equal. unfold sortBy, baseSortBy.
  rewrite decorateFrom_sorted_fixed; [apply map_dvalue_decorateFrom |].
  unfold ReportsLessonListPage.filtered, Array_filter.
  eapply ForallOrdPairs_impl;
    [| apply (ForallOrdPairs_filter _ _ _ Hord)].
  simpl. intros x y (_ & _ & H).
  destruct (Z.eqb_spec (compareAscending (get "title" x) (get "title" y)) 0) as [E | E].
  - destruct (Z.eqb_spec (compareAscending (get "active" x) (get "active" y)) 0); lia.
  - lia.
Qed.

Lemma ordered_lessons_keep_their_order_witness :
  let lessons := [Samples.lesson "l2" "Algebra" false;
                  Samples.lesson "l1" "Fractions" true;
                  Samples.lesson "l3" "Fractions" true] in
  map (get "id")
    (ReportsLessonListPage.table Samples.getLearnersForLesson
       Samples.getLessonStatusTally Samples.getGroupNames
       Samples.compareAscendingPrimitive lessons (VStr "allLessons"))
  = [VStr "l2"; VStr "l1"; VStr "l3"].
Proof.
  intros lessons.
  rewrite (ordered_lessons_keep_their_order Samples.getLearnersForLesson
             Samples.getLessonStatusTally Samples.getGroupNames
             Samples.compareAscendingPrimitive lessons (VStr "allLessons")).
  - by_computation.
  - subst lessons.
    repeat first [apply FOP_nil | apply FOP_cons | apply Forall_nil | apply Forall_cons];
      vm_compute;
      first [left; reflexivity | right; split; [reflexivity | discriminate]].
Defined.

End SortedInput.

(** * Part IV: the lesson-list table over a store *)

Section StoreFacts.
Import JS ReportsLessonListPageRun.

Lemma readObj_app (h ext : store) l o :
  readObj h l = Some o -> readObj (h ++ ext) l = Some o.
Proof.
  unfold readObj. destruct (h !! l) as [c |] eqn:E; [| discriminate].
  rewrite (lookup_app_l_Some _ _ _ _ E). trivial.
Qed.

Lemma readArr_app (h ext : store) l items :
  readArr h l = Some items -> readArr (h ++ ext) l = Some items.
Proof.
  unfold readArr. destruct (h !! l) as [c |] eqn:E; [| discriminate].
  rewrite (lookup_app_l_Some _ _ _ _ E). trivial.
Qed.

Lemma readInstance_app (h ext : store) l i :
  readInstance h l = Some i -> readInstance (h ++ ext) l = Some i.
Proof.
  unfold readInstance. destruct (h !! l) as [c |] eqn:E; [| discriminate].
  rewrite (lookup_app_l_Some _ _ _ _ E). trivial.
Qed.

Lemma readObj_lt (h : store) l o : readObj h l = Some o -> (l < length h)%nat.
Proof.
  unfold readObj. destruct (h !! l) as [c |] eqn:E; [| discriminate].
  intros _. eapply lookup_lt_Some. exact E.
Qed.

Lemma readArr_lt (h : store) l items :
  readArr h l = Some items -> (l < length h)%nat.
Proof.
  unfold readArr. destruct (h !! l) as [c |] eqn:E; [| discriminate].
  intros _. eapply lookup_lt_Some. exact E.
Qed.

Lemma readObj_new (h ext : store) o :
  readObj (h ++ Obj o :: ext) (length h) = Some o.
Proof. unfold readObj. rewrite list_lookup_middle by reflexivity. reflexivity. Qed.

Lemma readArr_new (h ext : store) items :
  readArr (h ++ Arr items :: ext) (length h) = Some items.
Proof. unfold readArr. rewrite list_lookup_middle by reflexivity. reflexivity. Qed.

Lemma Forall2_readObj_app (h ext : store) items (objs : list obj) :
  Forall2 (fun l o => readObj h l = Some o) items objs ->
  Forall2 (fun l o => readObj (h ++ ext) l = Some o) items objs.
Proof.
  intros H. eapply Forall2_impl; [| exact H]. simpl.
  intros l o. apply readObj_app.
Qed.

Lemma readRows_Forall2 (h : store) array (objs : list obj) :
  readRows h array = Some objs <->
  exists items, readArr h array = Some items /\
                Forall2 (fun l o => readObj h l = Some o) items objs.
Proof.
  unfold readRows. split.
  - destruct (readArr h array) as [items |]; [| discriminate].
    intros H. exists items. split; [reflexivity |]. apply mapM_Some. exact H.
  - intros (items & -> & H). apply mapM_Some. exact H.
Qed.

Lemma readRows_app (h ext : store) array (objs : list obj) :
  readRows h array = Some objs -> readRows (h ++ ext) array = Some objs.
Proof.
  rewrite !readRows_Forall2. intros (items & Ha & H). exists items.
  split; [apply readArr_app, Ha | apply Forall2_readObj_app, H].
Qed.

End StoreFacts.

Section SortByRelated.
Import JS Lodash.
Context {B C : Type} (R : B -> C -> Prop).
Context (p1 : string -> B -> value) (p2 : string -> C -> value).
Context (compareAscending : value -> value -> Z).
Hypothesis properties_agree : forall name x y, R x y -> p1 name x = p2 name y.

Lemma criteriaOf_related its x y :
  R x y -> criteriaOf p1 its x = criteriaOf p2 its y.
Proof.
  intros H. unfold criteriaOf. apply map_ext. intros name.
  apply properties_agree, H.
Qed.

Lemma decorateFrom_related i its l k :
  Forall2 R l k ->
  Forall2 (fun d e => criteria d = criteria e /\ index d = index e /\
                      R (dvalue d) (dvalue e))
    (decorateFrom p1 i its l) (decorateFrom p2 i its k).
Proof.
  intros H. revert i. induction H as [| x y l k Hxy _ IH]; intros i; simpl.
  - constructor.
  - constructor; [| apply IH]. simpl.
    split; [apply criteriaOf_related, Hxy | split; [reflexivity | exact Hxy]].
Qed.

(** [sortBy] arranges two collections alike when their elements, taken in
    pairs, have the same properties. *)
Lemma sortBy_related l k its :
  Forall2 R l k ->
  Forall2 R (sortBy p1 compareAscending l its) (sortBy p2 compareAscending k its).
Proof.
  intros H. unfold sortBy, baseSortBy.
  pose proof (decorateFrom_related 0 its l k H) as Hd.
  assert (Hs : Forall2 (fun d e => criteria d = criteria e /\ index d = index e /\
                                   R (dvalue d) (dvalue e))
                 (Array_sort (compareMultiple compareAscending) (decorateFrom p1 0 its l))
                 (Array_sort (compareMultiple compareAscending) (decorateFrom p2 0 its k))).
  { apply Array_sort_Forall2; [exact Hd |].
    pose proof (Forall2_combine_Forall _ _ _ Hd) as Hall.
    rewrite Forall_forall in Hall.
    apply ForallPairs_ForallOrdPairs. intros p q Hp Hq.
    destruct (Hall p Hp) as (Ec & Ei & _), (Hall q Hq) as (Ec' & Ei' & _).
    unfold compareMultiple. rewrite Ec, Ec', Ei, Ei'. reflexivity. }
  clear Hd. induction Hs as [| d e ds es (_ & _ & Hde) _ IH]; simpl; constructor; auto.
Qed.

End SortByRelated.

Section RunFacts.
Import JS ReportsLessonListPageRun.

Context (getLearnersForLesson : obj -> list value).
Context (getLessonStatusTally : value -> list value -> value).
Context (getGroupNames : value -> value).
Context (compareAscending : value -> value -> Z).

#[local] Abbreviation tableRow :=
  (ReportsLessonListPage.tableRow getLearnersForLesson getLessonStatusTally
     getGroupNames).
#[local] Abbreviation tableRow_run :=
  (ReportsLessonListPageRun.tableRow_run getLearnersForLesson
     getLessonStatusTally getGroupNames).
#[local] Abbreviation table_run :=
  (ReportsLessonListPageRun.table_run getLearnersForLesson
     getLessonStatusTally getGroupNames compareAscending).
#[local] Abbreviation table :=
  (ReportsLessonListPage.table getLearnersForLesson getLessonStatusTally
     getGroupNames compareAscending).

(** The filter keeps the places of the lessons that pass. *)
Lemma Array_filter_run_spec (h : store) filter v items (objs : list obj) :
  ReportsLessonListPageFilter.filterValue filter = Some v ->
  Forall2 (fun l o => readObj h l = Some o) items objs ->
  exists kept,
    Array_filter_run (filterCallback_run h filter) items = Some kept /\
    Forall2 (fun l o => readObj h l = Some o) kept
      (ReportsLessonListPage.filtered objs v).
Proof.
  intros Hv H. induction H as [| l o items objs Hlo _ IH].
  - exists []. split; [reflexivity | constructor].
  - destruct IH as (kept & Hk & HR). simpl.
    unfold filterCallback_run at 1. rewrite Hv, Hlo, Hk.
    unfold ReportsLessonListPage.filtered, Array_filter in *.
    cbn [List.filter].
    destruct (ToBoolean (ReportsLessonListPage.filterCallback v o)).
    + exists (l :: kept). split; [reflexivity | constructor; assumption].
    + exists kept. split; [reflexivity | exact HR].
Qed.

(** The row callback makes one new object, at the next free place, and
    changes nothing else. *)
Lemma tableRow_run_spec (h : store) l (o : obj) :
  readObj h l = Some o ->
  tableRow_run l h = Some (length h, h ++ [Obj (tableRow o)]).
Proof.
  intros Hlo. unfold ReportsLessonListPageRun.tableRow_run. rewrite Hlo.
  unfold alloc, Object_assign_run.
  rewrite readObj_new, (readObj_app _ _ _ _ Hlo).
  rewrite insert_app_r_alt by lia. rewrite Nat.sub_diag. reflexivity.
Qed.

Lemma Array_map_run_spec items : forall (h : store) (objs : list obj),
  Forall2 (fun l o => readObj h l = Some o) items objs ->
  Array_map_run tableRow_run items h
  = Some (seq (length h) (length items), h ++ map (fun o => Obj (tableRow o)) objs).
Proof.
  induction items as [| l items IH]; intros h objs H.
  - inversion H; subst. simpl. rewrite app_nil_r. reflexivity.
  - inversion H as [| ? o ? objs' Hlo H']; subst.
    cbn [Array_map_run]. rewrite (tableRow_run_spec h l o Hlo).
    rewrite (IH (h ++ [Obj (tableRow o)]) objs')
      by (apply Forall2_readObj_app; exact H').
    rewrite length_app. simpl. rewrite Nat.add_1_r, <- app_assoc. reflexivity.
Qed.

Lemma read_new_rows (h ext : store) (objs : list obj) :
  Forall2 (fun l o => readObj (h ++ map (fun o => Obj (tableRow o)) objs ++ ext) l = Some o)
    (seq (length h) (length objs)) (map tableRow objs).
Proof.
  revert h. induction objs as [| o objs IH]; intros h; simpl.
  - constructor.
  - constructor; [apply readObj_new |].
    specialize (IH (h ++ [Obj (tableRow o)])).
    rewrite length_app in IH. simpl in IH. rewrite Nat.add_1_r in IH.
    rewrite <- app_assoc in IH. exact IH.
Qed.

End RunFacts.

Section TableRun.
Import JS ReportsLessonListPageRun.

Context (getLearnersForLesson : obj -> list value).
Context (getLessonStatusTally : value -> list value -> value).
Context (getGroupNames : value -> value).
Context (compareAscending : value -> value -> Z).

#[local] Abbreviation tableRow :=
  (ReportsLessonListPage.tableRow getLearnersForLesson getLessonStatusTally
     getGroupNames).
#[local] Abbreviation table_run :=
  (ReportsLessonListPageRun.table_run getLearnersForLesson
     getLessonStatusTally getGroupNames compareAscending).
#[local] Abbreviation table :=
  (ReportsLessonListPage.table getLearnersForLesson getLessonStatusTally
     getGroupNames compareAscending).

(** One call of [table] on a store that holds the instance, its array of
    lessons and the lessons: the call succeeds, the store it leaves is the
    store it found with new places after it, and the array it returns and
    the rows in it are among the new places and hold the rows of the
    table. *)
Lemma table_run_spec (h : store) this lessons filter v (objs : list obj) :
  readInstance h this = Some (lessons, filter) ->
  readRows h lessons = Some objs ->
  ReportsLessonListPageFilter.filterValue filter = Some v ->
  exists rows h' items,
    table_run this h = Some (rows, h') /\
    (exists ext, h' = h ++ ext) /\
    readArr h' rows = Some items /\
    Forall (fun l => (length h <= l < length h')%nat) (rows :: items) /\
    Forall2 (fun l o => readObj h' l = Some o) items (table objs v).
Proof.
  intros Hinst Hrows Hv.
  apply readRows_Forall2 in Hrows as (items0 & Harr & Hobjs).
  destruct (Array_filter_run_spec h filter v items0 objs Hv Hobjs)
    as (kept & Hk & HRk).
  set (h1 := h ++ [Arr kept]).
  set (sortedLocs := Lodash.sortBy (property_run h1) compareAscending kept
                       ["title"; "active"]).
  set (sortedObjs := ReportsLessonListPage.sorted compareAscending objs v).
  set (h2 := h1 ++ [Arr sortedLocs]).
  set (h3 := h2 ++ map (fun o => Obj (tableRow o)) sortedObjs).
  set (rows := seq (length h2) (length sortedLocs)).
  assert (E1 : filtered_run this h = Some (length h, h1)).
  { unfold filtered_run. rewrite Hinst, Harr, Hk. reflexivity. }
  assert (E2 : sorted_run compareAscending (length h) h1 = Some (length h1, h2)).
  { unfold sorted_run, h1. rewrite readArr_new. reflexivity. }
  assert (E3 : readArr h2 (length h1) = Some sortedLocs).
  { unfold h2. apply readArr_new. }
  assert (Hsorted : Forall2 (fun l o => readObj h1 l = Some o) sortedLocs sortedObjs).
  { unfold sortedLocs, sortedObjs, ReportsLessonListPage.sorted.
    apply (sortBy_related (fun l (o : obj) => readObj h1 l = Some o)).
    - intros name l o Hlo. unfold property_run. rewrite Hlo. reflexivity.
    - unfold h1. apply Forall2_readObj_app. exact HRk. }
  assert (Hlen : length sortedLocs = length sortedObjs)
    by (eapply Forall2_length; exact Hsorted).
  assert (E4 : Array_map_run
                 (ReportsLessonListPageRun.tableRow_run getLearnersForLesson
                    getLessonStatusTally getGroupNames) sortedLocs h2
               = Some (rows, h3)).
  { apply Array_map_run_spec. unfold h2. apply Forall2_readObj_app. exact Hsorted. }
  exists (length h3), (h3 ++ [Arr rows]), rows.
  split; [| split; [| split; [| split]]].
  - unfold ReportsLessonListPageRun.table_run. rewrite E1, E2, E3, E4. reflexivity.
  - exists ([Arr kept] ++ [Arr sortedLocs]
            ++ map (fun o => Obj (tableRow o)) sortedObjs ++ [Arr rows]).
    unfold h3, h2, h1. rewrite <- !app_assoc. reflexivity.
  - apply readArr_new.
  - assert (L1 : length h1 = S (length h))
      by (unfold h1; rewrite length_app; simpl; lia).
    assert (L2 : length h2 = S (length h1))
      by (unfold h2; rewrite length_app; simpl; lia).
    assert (L3 : length h3 = (length h2 + length sortedLocs)%nat)
      by (unfold h3; rewrite length_app, length_map; lia).
    assert (L4 : length (h3 ++ [Arr rows]) = S (length h3))
      by (rewrite length_app; simpl; lia).
    constructor; [lia |].
    apply Forall_forall. intros l Hl. unfold rows in Hl.
    apply in_seq in Hl. lia.
  - unfold ReportsLessonListPage.table. fold sortedObjs.
    unfold rows. rewrite Hlen. unfold h3. rewrite <- app_assoc.
    apply read_new_rows.
Qed.

End TableRun.

Section TableRunTheorems.
Import JS ReportsLessonListPageRun.

(** C9: the table is determined by its inputs, and a call leaves nothing
    behind that a later call could see.  Two calls on stores that hold the
    same lessons (by value, in the same order) and the same filter value
    both succeed and return arrays that hold the same rows in the same
    order.  Two calls one after the other: each call leaves the store it
    found as it was and only adds places after it, so the instance, its
    filter, the array of lessons and the lessons read the same after both
    calls; the second call returns a new array of new row objects with the
    same rows; and the rows of the first call are untouched by the
    second. *)
Theorem table_calls_are_repeatable
    (getLearnersForLesson : obj -> list value)
    (getLessonStatusTally : value -> list value -> value)
    (getGroupNames : value -> value)
    (compareAscending : value -> value -> Z) :
  (forall (h h' : store) this this' lessons lessons' filter filter' v
          (objs : list obj),
     readInstance h this = Some (lessons, filter) ->
     readRows h lessons = Some objs ->
     ReportsLessonListPageFilter.filterValue filter = Some v ->
     readInstance h' this' = Some (lessons', filter') ->
     readRows h' lessons' = Some objs ->
     ReportsLessonListPageFilter.filterValue filter' = Some v ->
     exists rows h1 rows' h1',
       table_run getLearnersForLesson getLessonStatusTally getGroupNames
         compareAscending this h = Some (rows, h1) /\
       table_run getLearnersForLesson getLessonStatusTally getGroupNames
         compareAscending this' h' = Some (rows', h1') /\
       readRows h1 rows
       = Some (ReportsLessonListPage.table getLearnersForLesson
                 getLessonStatusTally getGroupNames compareAscending objs v) /\
       readRows h1' rows' = readRows h1 rows) /\
  (forall (h : store) this lessons filter v (objs : list obj),
     readInstance h this = Some (lessons, filter) ->
     readRows h lessons = Some objs ->
     ReportsLessonListPageFilter.filterValue filter = Some v ->
     exists rows1 h1 rows2 h2 items1 items2,
       table_run getLearnersForLesson getLessonStatusTally getGroupNames
         compareAscending this h = Some (rows1, h1) /\
       table_run getLearnersForLesson getLessonStatusTally getGroupNames
         compareAscending this h1 = Some (rows2, h2) /\
       (exists ext, h1 = h ++ ext) /\
       (exists ext, h2 = h1 ++ ext) /\
       readInstance h2 this = Some (lessons, filter) /\
       readRows h2 lessons = Some objs /\
       readRows h2 rows2 = readRows h1 rows1 /\
       readRows h2 rows1 = readRows h1 rows1 /\
       readRows h1 rows1
       = Some (ReportsLessonListPage.table getLearnersForLesson
                 getLessonStatusTally getGroupNames compareAscending objs v) /\
       readArr h2 rows1 = Some items1 /\
       readArr h2 rows2 = Some items2 /\
       Forall (fun l => (length h <= l < length h1)%nat) (rows1 :: items1) /\
       Forall (fun l => (length h1 <= l < length h2)%nat) (rows2 :: items2)).
Proof.
  split.
  - intros h h' this this' lessons lessons' filter filter' v objs
      Hi Hr Hv Hi' Hr' Hv'.
    destruct (table_run_spec getLearnersForLesson getLessonStatusTally
                getGroupNames compareAscending h this lessons filter v objs
                Hi Hr Hv) as (rows & h1 & items & E & _ & Ha & _ & HR).
    destruct (table_run_spec getLearnersForLesson getLessonStatusTally
                getGroupNames compareAscending h' this' lessons' filter' v objs
                Hi' Hr' Hv') as (rows' & h1' & items' & E' & _ & Ha' & _ & HR').
    assert (R1 : readRows h1 rows = Some (ReportsLessonListPage.table
                   getLearnersForLesson getLessonStatusTally getGroupNames
                   compareAscending objs v))
      by (apply readRows_Forall2; eauto).
    assert (R1' : readRows h1' rows' = Some (ReportsLessonListPage.table
                    getLearnersForLesson getLessonStatusTally getGroupNames
                    compareAscending objs v))
      by (apply readRows_Forall2; eauto).
    exists rows, h1, rows', h1'. repeat split; try assumption. congruence.
  - intros h this lessons filter v objs Hi Hr Hv.
    destruct (table_run_spec getLearnersForLesson getLessonStatusTally
                getGroupNames compareAscending h this lessons filter v objs
                Hi Hr Hv) as (rows1 & h1 & items1 & E1 & [ext1 ->] & Ha1 & Hf1 & HR1).
    pose proof (readInstance_app h ext1 _ _ Hi) as Hi1.
    pose proof (readRows_app h ext1 _ _ Hr) as Hr1.
    destruct (table_run_spec getLearnersForLesson getLessonStatusTally
                getGroupNames compareAscending (h ++ ext1) this lessons filter v
                objs Hi1 Hr1 Hv)
      as (rows2 & h2 & items2 & E2 & [ext2 ->] & Ha2 & Hf2 & HR2).
    assert (R1 : readRows (h ++ ext1) rows1
                 = Some (ReportsLessonListPage.table getLearnersForLesson
                           getLessonStatusTally getGroupNames compareAscending
                           objs v))
      by (apply readRows_Forall2; eauto).
    assert (R2 : readRows ((h ++ ext1) ++ ext2) rows2
                 = Some (ReportsLessonListPage.table getLearnersForLesson
                           getLessonStatusTally getGroupNames compareAscending
                           objs v))
      by (apply readRows_Forall2; eauto).
    exists rows1, (h ++ ext1), rows2, ((h ++ ext1) ++ ext2), items1, items2.
    split; [exact E1 |]. split; [exact E2 |].
    split; [eauto |]. split; [eauto |].
    split; [apply readInstance_app, Hi1 |].
    split; [apply readRows_app, Hr1 |].
    split; [congruence |].
    split; [rewrite R1; apply readRows_app, R1 |].
    split; [exact R1 |].
    split; [apply readArr_app, Ha1 |].
    split; [exact Ha2 |].
    split; assumption.
Qed.

Lemma table_calls_are_repeatable_witness :
  exists rows1 h1 rows2 h2,
    table_run Samples.getLearnersForLesson Samples.getLessonStatusTally
      Samples.getGroupNames Samples.compareAscendingPrimitive
      StoreSamples.this StoreSamples.h0 = Some (rows1, h1) /\
    table_run Samples.getLearnersForLesson Samples.getLessonStatusTally
      Samples.getGroupNames Samples.compareAscendingPrimitive
      StoreSamples.this h1 = Some (rows2, h2) /\
    readRows h2 rows2 = readRows h1 rows1 /\
    readRows h2 3%nat = Some Samples.lessons.
Proof.
  destruct (proj2 (table_calls_are_repeatable Samples.getLearnersForLesson
                     Samples.getLessonStatusTally Samples.getGroupNames
                     Samples.compareAscendingPrimitive)
              StoreSamples.h0 StoreSamples.this 3%nat
              (VObj (ReportsLessonListPageFilter.option_ "All lessons" "allLessons"))
              (VStr "allLessons") Samples.lessons eq_refl eq_refl eq_refl)
    as (rows1 & h1 & rows2 & h2 & items1 & items2 & E1 & E2 & _ & _ & _ & Hl & H21 & _).
  exists rows1, h1, rows2, h2. repeat split; assumption.
Defined.

(** The sample store after one call: two arrays and three rows are added,
    at places 5 to 10, and the array of rows is the last. *)
Example table_run_sample :
  option_map (fun r => (fst r, length (snd r)))
    (table_run Samples.getLearnersForLesson Samples.getLessonStatusTally
       Samples.getGroupNames Samples.compareAscendingPrimitive
       StoreSamples.this StoreSamples.h0)
  = Some (10%nat, 11%nat).
Proof. vm_compute. reflexivity. Qed.

End TableRunTheorems.
